(** * NeuroLearn: DOCX text extraction (lib/document_processor.py)

    A shallow embedding of [DocumentProcessor] and a verification of its
    specification.

    - Python [str] values are lists of Unicode code points.
    - The collaborators that are not part of the repository (python-docx,
      [zipfile], [xml.etree.ElementTree], [os]) are gathered in a record
      [Env] of what each call answers; every call may raise.
    - Methods that perform calls live in a monad [M] threading the trace of
      observable effects and carrying Python exceptions. *)

From Stdlib Require Import NArith ZArith Lia DecimalString.
From stdpp Require Import base option list strings gmap.

Local Open Scope N_scope.
Local Set Warnings "-register-all".

(** ** Python strings *)

Module PyStr.

(** A code point. *)
Definition char : Type := N.

(** An immutable [str]. *)
Definition str : Type := list char.

(** A literal of the source, read as code points (the literals of the
    source are ASCII). Rocq string literals have no escapes: line breaks are
    written with [nl]. *)
Definition lit (s : string) : str :=
  map (fun a => Ascii.N_of_ascii a) (String.list_ascii_of_string s).

(** ['\n'] *)
Definition nl : str := [10].

(** [len(s)] *)
Definition len (s : str) : Z := Z.of_nat (length s).

(** Truth value of a [str] in a condition: non-empty. *)
Definition truthy (s : str) : bool :=
  match s with [] => false | _ :: _ => true end.

(** The code points [str.strip()] removes (CPython's
    [_PyUnicode_IsWhitespace]). *)
Definition isspace (c : char) : bool :=
  ((9 <=? c) && (c <=? 13))
  || ((28 <=? c) && (c <=? 32))
  || (c =? 133) || (c =? 160) || (c =? 5760)
  || ((8192 <=? c) && (c <=? 8202))
  || (c =? 8232) || (c =? 8233) || (c =? 8239) || (c =? 8287)
  || (c =? 12288).

(** [s.lstrip()] *)
Fixpoint lstrip (s : str) : str :=
  match s with
  | [] => []
  | c :: s' => if isspace c then lstrip s' else s
  end.

(** [s.rstrip()] *)
Definition rstrip (s : str) : str := rev (lstrip (rev s)).

(** [s.strip()] *)
Definition strip (s : str) : str := rstrip (lstrip s).

(** [sep.join(parts)] *)
Fixpoint join (sep : str) (parts : list str) : str :=
  match parts with
  | [] => []
  | [x] => x
  | x :: rest => x ++ sep ++ join sep rest
  end.

(** [s.startswith(p)] *)
Fixpoint startswith (s p : str) : bool :=
  match p, s with
  | [], _ => true
  | _ :: _, [] => false
  | a :: p', b :: s' => (a =? b) && startswith s' p'
  end.

(** [x in xs] for a list of strings. *)
Definition contains (xs : list str) (x : str) : bool :=
  bool_decide (x ∈ xs).

End PyStr.
Import PyStr.

(** ** xml.etree.ElementTree *)

Module ET.

(** An [Element]: tag, the text before the first child ([None] or a
    string), the tail after the element, and the children. The trees the
    default parser builds carry string tags only. *)
Inductive Element : Type :=
  Elem (tag : str) (text tail : option str) (children : list Element).

Definition tag (e : Element) : str := let 'Elem t _ _ _ := e in t.
Definition text (e : Element) : option str := let 'Elem _ t _ _ := e in t.
Definition tail (e : Element) : option str := let 'Elem _ _ t _ := e in t.
Definition children (e : Element) : list Element :=
  let 'Elem _ _ _ c := e in c.

(** What a generator yields for [t = ...; if t: yield t]. *)
Definition yield_if (t : option str) : list str :=
  match t with
  | Some s => if truthy s then [s] else []
  | None => []
  end.

(** [Element.itertext()]: the element's text, then for each child its own
    [itertext()] followed by its tail. *)
Fixpoint itertext (e : Element) : list str :=
  match e with
  | Elem _ t _ cs =>
      yield_if t ++ flat_map (fun c => itertext c ++ yield_if (tail c)) cs
  end.

(** [Element.iter()]: the element, then its descendants, in document
    order. *)
Fixpoint iter (e : Element) : list Element :=
  match e with
  | Elem _ _ _ cs => e :: flat_map iter cs
  end.

(** [Element.iter(tag)] *)
Definition iter_tag (t : str) (e : Element) : list Element :=
  filter (fun x => tag x = t) (iter e).

(** [root.findall('.//prefix:local', namespaces)] once the prefix is
    resolved to [qname]: every element below [root] (never [root] itself)
    that bears the tag, in document order. *)
Definition findall_descendants (qname : str) (root : Element) : list Element :=
  flat_map (iter_tag qname) (children root).

End ET.
Import ET.

(** ** The fallback's text collection (a pure function of the tree) *)

(** ['{http://schemas.openxmlformats.org/wordprocessingml/2006/main}p'],
    what ['w:p'] stands for under the method's [namespaces]. *)
Definition w_p : str :=
  lit "{http://schemas.openxmlformats.org/wordprocessingml/2006/main}p".

(** [''.join(e.itertext())] *)
Definition all_text_of (e : Element) : str := join [] (itertext e).

(** Lines 97-100: the loop over the paragraphs found. *)
Fixpoint collect_paragraphs (paragraphs : list Element) (text_parts : list str)
  : list str :=
  match paragraphs with
  | [] => text_parts
  | para :: rest =>
      let para_text := all_text_of para in
      if truthy (strip para_text)
      then collect_paragraphs rest (text_parts ++ [strip para_text])
      else collect_paragraphs rest text_parts
  end.

(** Lines 103-106: the whole-tree text, when nothing was collected. *)
Definition collect_all_text (root : Element) (text_parts : list str) : list str :=
  match text_parts with
  | [] =>
      let all_text := all_text_of root in
      if truthy (strip all_text) then [strip all_text] else text_parts
  | _ :: _ => text_parts
  end.

(** [if t and t.strip(): text_parts.append(t.strip())] *)
Definition append_if_text (t : option str) (text_parts : list str) : list str :=
  match t with
  | Some s =>
      if truthy s && truthy (strip s) then text_parts ++ [strip s]
      else text_parts
  | None => text_parts
  end.

(** Lines 111-115: the loop over [root.iter()]. *)
Fixpoint walk_elements (elems : list Element) (text_parts : list str) : list str :=
  match elems with
  | [] => text_parts
  | elem :: rest =>
      walk_elements rest
        (append_if_text (tail elem) (append_if_text (text elem) text_parts))
  end.

(** Lines 109-115: the per-element walk, when still nothing was collected. *)
Definition collect_nodes (root : Element) (text_parts : list str) : list str :=
  match text_parts with
  | [] => walk_elements (iter root) text_parts
  | _ :: _ => text_parts
  end.

(** The value of [text_parts] after each of the three stages. *)
Definition tier1 (root : Element) : list str :=
  collect_paragraphs (findall_descendants w_p root) [].
Definition tier2 (root : Element) : list str := collect_all_text root (tier1 root).
Definition tier3 (root : Element) : list str := collect_nodes root (tier2 root).

(** [DocumentProcessor._extract_formatted_text] *)
Definition _extract_formatted_text (root : Element) : str :=
  join (nl ++ nl) (tier3 root).

(** ** Exceptions and effects *)

(** An instance of [Exception] (what [except Exception] catches), observed
    through [str(e)]. *)
Record exn : Type := Exception { exn_str : str }.

(** The outcome of an expression that may raise. *)
Inductive result (A : Type) : Type :=
| Ok (a : A)
| Raise (e : exn).
Arguments Ok {A} a.
Arguments Raise {A} e.

#[global] Instance result_ret : MRet result := fun _ a => Ok a.
#[global] Instance result_bind : MBind result := fun _ _ f r =>
  match r with
  | Ok a => f a
  | Raise e => Raise e
  end.

(** What the program does to the outside, in order. *)
Inductive event : Type :=
| Stat (path : str)
| OpenDocument (path : str)
| OpenArchive (path : str)
| CloseArchive (path : str)
| OpenEntry (name : str)
| CloseEntry (name : str)
| ParseXml
| Stdout (line : str).

Definition trace : Type := list event.

(** Computations: they extend the trace and return or raise. *)
Definition M (A : Type) : Type := trace -> result A * trace.

#[global] Instance M_ret : MRet M := fun _ a tr => (Ok a, tr).
#[global] Instance M_bind : MBind M := fun _ _ f m tr =>
  match m tr with
  | (Ok a, tr') => f a tr'
  | (Raise e, tr') => (Raise e, tr')
  end.

(** An outside call: it is recorded, then answers. *)
Definition call {A : Type} (ev : event) (answer : result A) : M A :=
  fun tr => (answer, tr ++ [ev]).

(** A pure expression that may raise. *)
Definition eval {A : Type} (r : result A) : M A := fun tr => (r, tr).

(** [try: body / except Exception as e: handler(e)] *)
Definition try_except {A : Type} (body : M A) (handler : exn -> M A) : M A :=
  fun tr =>
    match body tr with
    | (Ok a, tr') => (Ok a, tr')
    | (Raise e, tr') => handler e tr'
    end.

(** [with enter as r: body(r)]: the resource is released on every way out
    of the body. *)
Definition with_ {R A : Type} (enter : M R) (released : event) (body : R -> M A)
  : M A :=
  fun tr =>
    match enter tr with
    | (Ok r, tr') => let '(out, tr'') := body r tr' in (out, tr'' ++ [released])
    | (Raise e, tr') => (Raise e, tr')
    end.

(** [for x in xs: body], threading the variables the body assigns. *)
Fixpoint for_ {A S : Type} (xs : list A) (body : A -> S -> result S) (s : S)
  : result S :=
  match xs with
  | [] => Ok s
  | x :: rest => s' ← body x s; for_ rest body s'
  end.

(** ** The collaborators *)

(** python-docx objects, as far as the program reads them; any property
    may raise. *)
Record Cell : Type := { cell_text : result str }.
Record Row : Type := { row_cells : result (list Cell) }.
Record Table : Type := { table_rows : result (list Row) }.
Record Paragraph : Type := { paragraph_text : result str }.
Record DocumentObject : Type := {
  doc_paragraphs : result (list Paragraph);
  doc_tables : result (list Table)
}.

(** The content of an archive entry. *)
Definition bytes : Type := list N.

(** An opened [zipfile.ZipFile]. *)
Record Archive : Type := {
  namelist : list str;
  zip_open : str -> result bytes
}.

(** Python values stored in the metadata dictionary. *)
Inductive pyval : Type :=
| VStr (s : str)
| VInt (z : Z)
| VBool (b : bool).

(** What the libraries and the interpreter answer; [py_print] is what
    [print(line)] does with the line ([sys.stdout] may refuse it). *)
Record Env : Type := {
  os_stat_st_size : str -> result Z;
  os_path_basename : str -> str;
  os_path_splitext : str -> str * str;
  str_lower : str -> str;
  py_print : str -> result unit;
  Document : str -> result DocumentObject;
  ZipFile : str -> result Archive;
  ET_parse : bytes -> result Element
}.

(** ** class DocumentProcessor *)

Module DocumentProcessor.

Section Methods.

Variable env : Env.

(** Lines 32-34: the body of the loop over [doc.paragraphs]. *)
Definition paragraph_step (paragraph : Paragraph) (text_parts : list str)
  : result (list str) :=
  t ← paragraph_text paragraph;
  if truthy (strip t)
  then t' ← paragraph_text paragraph; mret (text_parts ++ [strip t'])
  else mret text_parts.

(** Lines 40-42: the body of the loop over [row.cells]. *)
Definition cell_step (cell : Cell) (row_text : list str) : result (list str) :=
  t ← cell_text cell;
  if truthy (strip t)
  then t' ← cell_text cell; mret (row_text ++ [strip t'])
  else mret row_text.

(** Lines 38-44: the body of the loop over [table.rows]. *)
Definition row_step (row : Row) (text_parts : list str) : result (list str) :=
  cells ← row_cells row;
  row_text ← for_ cells cell_step [];
  match row_text with
  | [] => mret text_parts
  | _ :: _ => mret (text_parts ++ [join (lit " | ") row_text])
  end.

(** Lines 37-44: the body of the loop over [doc.tables]. *)
Definition table_step (table : Table) (text_parts : list str)
  : result (list str) :=
  rows ← table_rows table;
  for_ rows row_step text_parts.

(** Lines 29-46: what the structured path computes from a loaded
    document. *)
Definition structured_text (doc : DocumentObject) : result str :=
  paragraphs ← doc_paragraphs doc;
  text_parts ← for_ paragraphs paragraph_step [];
  tables ← doc_tables doc;
  text_parts ← for_ tables table_step text_parts;
  mret (join (nl ++ nl) text_parts).

(** Lines 64-72: the body of the [try] of the fallback. *)
Definition manual_body (file_path : str) : M str :=
  with_ (call (OpenArchive file_path) (ZipFile env file_path))
    (CloseArchive file_path)
    (fun docx_zip =>
       if contains (namelist docx_zip) (lit "word/document.xml")
       then
         with_ (call (OpenEntry (lit "word/document.xml"))
                  (zip_open docx_zip (lit "word/document.xml")))
           (CloseEntry (lit "word/document.xml"))
           (fun xml_file =>
              root ← call ParseXml (ET_parse env xml_file);
              mret (_extract_formatted_text root))
       else mret (lit "Error: Could not find document.xml in DOCX file")).

(** [DocumentProcessor._extract_docx_manual] *)
Definition _extract_docx_manual (file_path : str) : M str :=
  try_except (manual_body file_path)
    (fun e => mret (lit "Error extracting DOCX content: " ++ exn_str e)).

(** Lines 27-46: the body of the [try] of the structured path. *)
Definition structured_body (file_path : str) : M str :=
  doc ← call (OpenDocument file_path) (Document env file_path);
  eval (structured_text doc).

(** [DocumentProcessor.extract_docx_content] *)
Definition extract_docx_content (file_path : str) : M str :=
  try_except (structured_body file_path)
    (fun e =>
       _ ← call (Stdout (lit "Error extracting DOCX content with python-docx: "
                         ++ exn_str e))
                (py_print env (lit "Error extracting DOCX content with python-docx: "
                               ++ exn_str e));
       _extract_docx_manual file_path).

(** [DocumentProcessor.get_document_metadata] *)
Definition get_document_metadata (file_path : str) : M (gmap string pyval) :=
  try_except
    (st_size ← call (Stat file_path) (os_stat_st_size env file_path);
     mret (<["file_path" := VStr file_path]>
           (<["file_name" := VStr (os_path_basename env file_path)]>
           (<["file_size" := VInt st_size]>
           (<["content_length" := VInt 0]>
           (<["extraction_success" := VBool false]> ∅))))))
    (fun e =>
       mret (<["error" := VStr (lit "Could not get metadata: " ++ exn_str e)]> ∅)).

(** [DocumentProcessor.process_document] *)
Definition process_document (file_path : str) : M (str * gmap string pyval) :=
  metadata ← get_document_metadata file_path;
  if bool_decide (is_Some (metadata !! "error"))
  then mret ([], metadata)
  else
    let file_ext := str_lower env (os_path_splitext env file_path).2 in
    content ← (if bool_decide (file_ext = lit ".docx")
               then extract_docx_content file_path
               else mret (lit "Unsupported file format: " ++ file_ext));
    let metadata := <["content_length" := VInt (len content)]> metadata in
    let metadata :=
      <["extraction_success" :=
          VBool (bool_decide (0 < len content)%Z
                 && negb (startswith content (lit "Error")))]> metadata in
    mret (content, metadata).

End Methods.

End DocumentProcessor.

(** The module-level convenience function [extract_docx_content]. *)
Definition extract_docx_content (env : Env) (file_path : str) : M str :=
  '(content, _) ← DocumentProcessor.process_document env file_path;
  mret content.

(** ** Specification-side notions *)

(** Empty or whitespace-only. *)
Definition blank (s : str) : Prop := strip s = [].

(** An optional text that is absent, empty or whitespace-only. *)
Definition blank_opt (t : option str) : Prop :=
  match t with
  | Some s => blank s
  | None => True
  end.

(** A computation that never reads the trace: it returns the same outcome
    and records the same events whatever happened before. *)
Definition oblivious {A : Type} (m : M A) : Prop :=
  ∃ out evs, ∀ tr, m tr = (out, tr ++ evs).

(** A document all of whose properties read without raising: paragraph
    texts, and tables as rows of cell texts. *)
Record PlainDocument : Type := {
  plain_paragraphs : list str;
  plain_tables : list (list (list str))
}.

Definition plain_paragraph (t : str) : Paragraph := {| paragraph_text := Ok t |}.
Definition plain_cell (t : str) : Cell := {| cell_text := Ok t |}.
Definition plain_row (cells : list str) : Row :=
  {| row_cells := Ok (map plain_cell cells) |}.
Definition plain_table (rows : list (list str)) : Table :=
  {| table_rows := Ok (map plain_row rows) |}.

(** The python-docx object exposing a plain document. *)
Definition loaded (d : PlainDocument) : DocumentObject :=
  {| doc_paragraphs := Ok (map plain_paragraph (plain_paragraphs d));
     doc_tables := Ok (map plain_table (plain_tables d)) |}.

(** The trimmed texts that are non-empty, in order. *)
Definition trimmed_nonempty (texts : list str) : list str :=
  filter (fun t => t ≠ []) (map strip texts).

(** The item of a table row as section 4.1 words it: the trimmed non-empty
    cell texts joined by [" | "], for a row with at least one such cell. *)
Definition spec_row_item (cells : list str) : list str :=
  match trimmed_nonempty cells with
  | [] => []
  | kept => [join (lit " | ") kept]
  end.

(** The items of section 4.1: all paragraphs first, then the table rows. *)
Definition spec_items (d : PlainDocument) : list str :=
  trimmed_nonempty (plain_paragraphs d)
  ++ flat_map (flat_map spec_row_item) (plain_tables d).

(** The output of section 4.1: the items joined by a blank line. *)
Definition spec_structured_output (d : PlainDocument) : str :=
  join (nl ++ nl) (spec_items d).

(** ** A sample environment

    A POSIX host for the examples: [posixpath]'s [splitext] and [basename],
    [str.lower] on ASCII text, a standard output that takes every line,
    and a file store in which no file exists until [with_file] adds one. *)

(** [s.rfind(c)] for a one-character [c]: the last index, or -1. *)
Fixpoint rfind_from (c : char) (s : str) (i last : Z) : Z :=
  match s with
  | [] => last
  | x :: s' => rfind_from c s' (i + 1)%Z (if x =? c then i else last)
  end.
Definition rfind (c : char) (s : str) : Z := rfind_from c s 0%Z (-1)%Z.

(** [genericpath._splitext(p, '/', None, '.')] *)
Definition posix_splitext (p : str) : str * str :=
  let sepIndex := rfind 47 p in
  let dotIndex := rfind 46 p in
  let name_before_dot :=
    take (Z.to_nat (dotIndex - (sepIndex + 1))) (drop (Z.to_nat (sepIndex + 1)) p) in
  if bool_decide (sepIndex < dotIndex)%Z
     && existsb (fun x => negb (x =? 46)) name_before_dot
  then (take (Z.to_nat dotIndex) p, drop (Z.to_nat dotIndex) p)
  else (p, []).

(** [posixpath.basename(p)] *)
Definition posix_basename (p : str) : str := drop (Z.to_nat (rfind 47 p + 1)) p.

(** [s.lower()] for ASCII text. *)
Definition ascii_lower (s : str) : str :=
  map (fun c => if (65 <=? c) && (c <=? 90) then c + 32 else c) s.

Definition no_such_file (p : str) : exn :=
  Exception (lit "[Errno 2] No such file or directory: '" ++ p ++ lit "'").

Definition empty_host : Env :=
  {| os_stat_st_size := fun p => Raise (no_such_file p);
     os_path_basename := posix_basename;
     os_path_splitext := posix_splitext;
     str_lower := ascii_lower;
     py_print := fun _ => Ok ();
     Document := fun p =>
       Raise (Exception (lit "Package not found at '" ++ p ++ lit "'"));
     ZipFile := fun p => Raise (no_such_file p);
     ET_parse := fun _ => Raise (Exception (lit "no element found: line 1, column 0")) |}.

(** The host with one more file: its size, what python-docx and [zipfile]
    make of it. *)
Definition with_file (host : Env) (path : str) (size : Z)
    (doc : result DocumentObject) (zip : result Archive) : Env :=
  {| os_stat_st_size := fun p =>
       if bool_decide (p = path) then Ok size else os_stat_st_size host p;
     os_path_basename := os_path_basename host;
     os_path_splitext := os_path_splitext host;
     str_lower := str_lower host;
     py_print := py_print host;
     Document := fun p => if bool_decide (p = path) then doc else Document host p;
     ZipFile := fun p => if bool_decide (p = path) then zip else ZipFile host p;
     ET_parse := ET_parse host |}.

Definition not_a_zip : exn := Exception (lit "File is not a zip file").

(** Two paragraphs and one 2x2 table (section 8, end-to-end). *)
Definition two_by_two : PlainDocument :=
  {| plain_paragraphs := [lit "Para1"; lit "Para2"];
     plain_tables := [[[lit "A"; lit "B"]; [lit "C"; lit "D"]]] |}.

(** An archive holding only the content-types part. *)
Definition archive_without_markup : Archive :=
  {| namelist := [lit "[Content_Types].xml"];
     zip_open := fun name => Raise (Exception (lit "There is no item named '"
                                               ++ name ++ lit "' in the archive")) |}.

(** A host where [report.docx] loads as [two_by_two]. *)
Definition host_with_report : Env :=
  with_file empty_host (lit "report.docx") 4096
    (Ok (loaded two_by_two)) (Raise not_a_zip).

(** A host where [broken.docx] is an archive python-docx rejects and that
    lacks the markup entry. *)
Definition host_with_broken_docx : Env :=
  with_file empty_host (lit "broken.docx") 22
    (Raise (Exception (lit "no relationship of type officeDocument")))
    (Ok archive_without_markup).

(** A host where [notes.doc] exists. *)
Definition host_with_doc : Env :=
  with_file empty_host (lit "notes.doc") 10 (Raise not_a_zip) (Raise not_a_zip).

(** A space, a tab and a line break. *)
Definition some_whitespace : str := [32; 9; 10].

(** [<r><a/>x<b/>y</r>]: no element has text, two children have tails. *)
Definition tails_only : Element :=
  Elem (lit "r") None None
    [Elem (lit "a") None (Some (lit "x")) [];
     Elem (lit "b") None (Some (lit "y")) []].

(** A lone element, detached from any document, with tail text. *)
Definition lone_with_tail : Element :=
  Elem (lit "r") None (Some (lit " t ")) [].

(** [<r> hello <w:p> </w:p></r>]: the only paragraph is whitespace. *)
Definition root_text_only : Element :=
  Elem (lit "r") (Some (lit " hello ")) None [Elem w_p (Some (lit " ")) None []].

(** [<r><w:p> </w:p></r>]: whitespace is all there is. *)
Definition whitespace_only : Element :=
  Elem (lit "r") None None [Elem w_p (Some (lit " ")) (Some nl) []].

(** ** The scripts: the [__main__] block and [extract_docx.py] *)

(** What a script does to the outside: what the class does, and files. *)
Inductive script_event : Type :=
| Plain (ev : event)
| ReadEntry (name : str)
| OpenForWriting (path : str)
| WriteText (path text : str)
| CloseFile (path : str).

(** Script computations, over the script's own trace. *)
Definition Script (A : Type) : Type :=
  list script_event → result A * list script_event.

#[global] Instance Script_ret : MRet Script := fun _ a st => (Ok a, st).
#[global] Instance Script_bind : MBind Script := fun _ _ f m st =>
  match m st with
  | (Ok a, st') => f a st'
  | (Raise e, st') => (Raise e, st')
  end.

(** An outside call of a script: recorded, then answered. *)
Definition act {A : Type} (ev : script_event) (answer : result A) : Script A :=
  fun st => (answer, st ++ [ev]).

(** A pure expression of a script that may raise. *)
Definition compute {A : Type} (r : result A) : Script A := fun st => (r, st).

(** A call into the class: its events join the script's trace. *)
Definition run {A : Type} (m : M A) : Script A :=
  fun st => let '(out, evs) := m [] in (out, st ++ map Plain evs).

(** [print(line)] *)
Definition echo (env : Env) (line : str) : Script unit :=
  act (Plain (Stdout line)) (py_print env line).

(** [str(n)] for an integer. *)
Definition str_of_int (z : Z) : str := lit (NilZero.string_of_int (Z.to_int z)).

(** What the outside answers to the scripts, besides [Env]. *)
Record ScriptEnv : Type := {
  open_for_writing : str → result unit;
  write_text : str → str → result unit;
  repr_metadata : gmap string pyval → str;
  zip_read : Archive → str → result bytes;
  decode_utf8 : bytes → result str;
  ET_fromstring : str → result Element
}.

(** Leaving the body of [with open(path, ...)]: the file is closed whether
    the body raised or not. *)
Definition then_close {A : Type} (path : str) (body : Script A) : Script A :=
  fun st => let '(out, st') := body st in (out, st' ++ [CloseFile path]).

(** [with open(path, 'w', encoding='utf-8') as f: f.write(text)] *)
Definition write_file (fs : ScriptEnv) (path text : str) : Script unit :=
  _ ← act (OpenForWriting path) (open_for_writing fs path);
  then_close path (act (WriteText path text) (write_text fs path text)).

Definition main_file_path : str := lit "d:/NeuroLearn/NeuroLearn_V1.docx".
Definition main_output : str := lit "NeuroLearn_extracted_formatted.txt".

(** Lines 189-209 of [document_processor.py]: the [__main__] block. *)
Definition main (env : Env) (fs : ScriptEnv) : Script unit :=
  let file_path := main_file_path in
  '(content, metadata) ← run (DocumentProcessor.process_document env file_path);
  if truthy content
  then
    _ ← echo env (lit "Content extracted successfully!");
    _ ← echo env (lit "Content length: " ++ str_of_int (len content)
              ++ lit " characters");
    _ ← echo env (nl ++ lit "--- First 500 characters ---");
    _ ← echo env (take 500 content);
    _ ← write_file fs main_output content;
    _ ← echo env (nl ++ lit "Formatted content saved to NeuroLearn_extracted_formatted.txt");
    echo env (nl ++ lit "Metadata: " ++ repr_metadata fs metadata)
  else
    _ ← echo env (lit "Failed to extract content");
    echo env (lit "Metadata: " ++ repr_metadata fs metadata).

Definition script_file_path : str := lit "d:/NeuroLearn/NeuroLearn_V1.docx".
Definition script_output : str := lit "extracted_content.txt".

(** [extract_docx.py] *)
Definition extract_docx_script (env : Env) (fs : ScriptEnv) : Script unit :=
  zip_file ← act (Plain (OpenArchive script_file_path))
                 (ZipFile env script_file_path);
  raw ← act (ReadEntry (lit "word/document.xml"))
            (zip_read fs zip_file (lit "word/document.xml"));
  document_xml ← compute (decode_utf8 fs raw);
  _ ← act (Plain (CloseArchive script_file_path)) (Ok ());
  root ← act (Plain ParseXml) (ET_fromstring fs document_xml);
  let text_content := join [] (itertext root) in
  _ ← write_file fs script_output text_content;
  _ ← echo env text_content;
  echo env (nl ++ nl
        ++ lit "--- Content extracted and saved to extracted_content.txt ---").

(** A file system where every file can be written, for the examples;
    dictionaries are shown by their number of keys, and no entry can be
    read. *)
Definition writable : ScriptEnv :=
  {| open_for_writing := fun _ => Ok ();
     write_text := fun _ _ => Ok ();
     repr_metadata := fun m => str_of_int (Z.of_nat (size m));
     zip_read := fun _ name =>
       Raise (Exception (lit "There is no item named '" ++ name
                         ++ lit "' in the archive"));
     decode_utf8 := fun raw => Ok raw;
     ET_fromstring := fun _ => Raise (Exception (lit "no element found")) |}.

(** A host where the file the scripts name is no archive. *)
Definition host_with_fake_main_file : Env :=
  with_file empty_host main_file_path 512
    (Raise (Exception (lit "Package not found"))) (Raise not_a_zip).

(** A host where the file the scripts name is an archive without the
    markup entry. *)
Definition host_with_hollow_main_file : Env :=
  with_file empty_host script_file_path 22
    (Raise (Exception (lit "Package not found"))) (Ok archive_without_markup).

(** ** Further notions, for the properties beyond the specification *)

(** [s] is non-empty and its first code point is not whitespace. *)
Definition starts_tight (s : str) : bool :=
  match s with
  | [] => false
  | c :: _ => negb (isspace c)
  end.

(** [s] is non-empty and neither begins nor ends with whitespace. *)
Definition tight (s : str) : Prop :=
  starts_tight s = true ∧ starts_tight (rev s) = true.

(** [x] occurs in [s] as a contiguous part. *)
Definition occurs_in (x s : str) : Prop := ∃ pre post, s = pre ++ x ++ post.

(** [<r>intro<w:p> a </w:p>between<w:p>b</w:p></r>]: text inside and
    outside paragraphs. *)
Definition mixed_text : Element :=
  Elem (lit "r") (Some (lit "intro")) None
    [Elem w_p (Some (lit " a ")) (Some (lit "between")) [];
     Elem w_p (Some (lit "b")) None []].

(** A document with nothing but whitespace, and a host where
    [blank.docx] loads as it. *)
Definition blank_document : PlainDocument :=
  {| plain_paragraphs := [lit " "; []];
     plain_tables := [[[some_whitespace; lit " "]]] |}.

Definition host_with_blank : Env :=
  with_file empty_host (lit "blank.docx") 2048
    (Ok (loaded blank_document)) (Raise not_a_zip).

(** A document whose text begins with the word Error, and a host where
    [errors.docx] loads as it. *)
Definition error_guide : PlainDocument :=
  {| plain_paragraphs := [lit "Error codes and their meaning"; lit "E1: disk full"];
     plain_tables := [] |}.

Definition host_with_error_guide : Env :=
  with_file empty_host (lit "errors.docx") 3000
    (Ok (loaded error_guide)) (Raise not_a_zip).

(** A code point of the surrogate range, which strict UTF-8 cannot encode. *)
Definition is_surrogate (c : char) : bool := (55296 <=? c) && (c <=? 57343).

(** [print] to a standard output that encodes with strict UTF-8. *)
Definition strict_utf8_print (line : str) : result unit :=
  if existsb is_surrogate line
  then Raise (Exception (lit "'utf-8' codec can't encode character: surrogates not allowed"))
  else Ok ().

(** The host with another standard output. *)
Definition with_stdout (host : Env) (print_answer : str → result unit) : Env :=
  {| os_stat_st_size := os_stat_st_size host;
     os_path_basename := os_path_basename host;
     os_path_splitext := os_path_splitext host;
     str_lower := str_lower host;
     py_print := print_answer;
     Document := Document host;
     ZipFile := ZipFile host;
     ET_parse := ET_parse host |}.

(** ['\udcff.docx']: a file name with a byte that is no UTF-8, as
    [os.listdir] returns it. *)
Definition surrogate_path : str := 56575 :: lit ".docx".

(** A host with a strict UTF-8 standard output, where the file of that name
    is nothing python-docx can load. *)
Definition host_with_strict_stdout : Env :=
  with_stdout
    (with_file empty_host surrogate_path 16
       (Raise (Exception (lit "Package not found at '" ++ surrogate_path ++ lit "'")))
       (Raise not_a_zip))
    strict_utf8_print.

(** A host where [photo.docx] is no archive at all. *)
Definition host_with_fake_docx : Env :=
  with_file empty_host (lit "photo.docx") 512
    (Raise (Exception (lit "Package not found at 'photo.docx'")))
    (Raise not_a_zip).

(** The metadata [get_document_metadata] returns when the stats are read. *)
Definition collected (env : Env) (file_path : str) (size : Z)
  : gmap string pyval :=
  <["file_path" := VStr file_path]>
  (<["file_name" := VStr (os_path_basename env file_path)]>
  (<["file_size" := VInt size]>
  (<["content_length" := VInt 0]>
  (<["extraction_success" := VBool false]> ∅)))).

(** The metadata [process_document] returns with [content]. *)
Definition updated (env : Env) (file_path : str) (size : Z) (content : str)
  : gmap string pyval :=
  <["extraction_success" :=
      VBool (truthy content && negb (startswith content (lit "Error")))]>
  (<["content_length" := VInt (len content)]> (collected env file_path size)).

(** A paragraph holding a text box whose content is a paragraph:
    [<body><w:p>Outer <txbxContent><w:p>boxed</w:p></txbxContent> end</w:p></body>]. *)
Definition boxed_paragraph : Element := Elem w_p (Some (lit "boxed")) None [].

Definition outer_paragraph : Element :=
  Elem w_p (Some (lit "Outer ")) None
    [Elem (lit "txbxContent") None (Some (lit " end")) [boxed_paragraph]].

Definition text_box : Element := Elem (lit "body") None None [outer_paragraph].

(** * Verification *)

(** ** Strings *)

Section StringFacts.

Implicit Types (s p : str) (c : char) (parts : list str).

Lemma truthy_true s : truthy s = true ↔ s ≠ [].
Proof. destruct s; simpl; split; intros; congruence. Qed.

Lemma truthy_false s : truthy s = false ↔ s = [].
Proof. destruct s; simpl; split; intros; congruence. Qed.

Lemma lstrip_nil s : lstrip s = [] ↔ forallb isspace s = true.
Proof.
  induction s as [|c s IH]; simpl; [tauto|].
  destruct (isspace c); simpl; [exact IH|].
  split; intros; congruence.
Qed.

Lemma lstrip_suffix s : ∃ ws, s = ws ++ lstrip s ∧ forallb isspace ws = true.
Proof.
  induction s as [|c s (ws & Hs & Hws)]; simpl.
  - by exists [].
  - destruct (isspace c) eqn:Hc.
    + exists (c :: ws). simpl. rewrite Hc, Hws. split; [congruence|done].
    + by exists [].
Qed.

Lemma forallb_isspace_rev s :
  forallb isspace (rev s) = forallb isspace s.
Proof.
  apply eq_true_iff_eq. rewrite !forallb_forall.
  split; intros H x Hx; apply H; [by apply in_rev in Hx | by apply in_rev].
Qed.

Lemma rstrip_nil s : rstrip s = [] ↔ forallb isspace s = true.
Proof.
  unfold rstrip. rewrite <- forallb_isspace_rev, <- lstrip_nil.
  split; intros H.
  - apply (f_equal (@rev char)) in H. by rewrite rev_involutive in H.
  - by rewrite H.
Qed.

(** [s.strip()] is empty exactly when [s] holds whitespace only. *)
Lemma strip_nil s : strip s = [] ↔ forallb isspace s = true.
Proof.
  unfold strip. rewrite rstrip_nil.
  destruct (lstrip_suffix s) as (ws & Hs & Hws).
  split; intros H.
  - rewrite Hs, forallb_app, Hws, H. done.
  - rewrite Hs, forallb_app in H. by apply andb_prop in H as [_ H].
Qed.

Lemma blank_spaces s : blank s ↔ forallb isspace s = true.
Proof. apply strip_nil. Qed.

Lemma blank_nil : blank [].
Proof. reflexivity. Qed.

Lemma join_empty_sep_cons s parts : join [] (s :: parts) = s ++ join [] parts.
Proof. destruct parts; simpl; [by rewrite app_nil_r | done]. Qed.

Lemma join_empty_sep_app parts parts' :
  join [] (parts ++ parts') = join [] parts ++ join [] parts'.
Proof.
  induction parts as [|s parts IH]; [done|].
  rewrite <- app_comm_cons, !join_empty_sep_cons, IH. by rewrite app_assoc.
Qed.

(** A concatenation is blank exactly when every piece is. *)
Lemma blank_join_empty_sep parts : blank (join [] parts) ↔ Forall blank parts.
Proof.
  induction parts as [|s parts IH].
  - split; [constructor | intros; apply blank_nil].
  - rewrite join_empty_sep_cons, Forall_cons, <- IH, !blank_spaces, forallb_app.
    rewrite andb_true_iff. done.
Qed.

End StringFacts.

(** ** Trees and the three tiers of the fallback *)

Section TreeFacts.

Implicit Types (e root para : Element) (t : option str) (acc : list str).

(** Induction on trees, with the hypothesis for every child. *)
Lemma Element_children_ind (P : Element → Prop) :
  (∀ tg tx tl cs, Forall P cs → P (Elem tg tx tl cs)) → ∀ e, P e.
Proof.
  intros step. fix IH 1. intros [tg tx tl cs]. apply step.
  induction cs as [|c cs IHcs]; constructor; [apply IH | exact IHcs].
Qed.

Lemma iter_unfold e : iter e = e :: flat_map iter (children e).
Proof. by destruct e. Qed.

Lemma Forall_blank_yield_if t : Forall blank (yield_if t) ↔ blank_opt t.
Proof.
  destruct t as [s|]; simpl; [|split; [done | constructor]].
  destruct s as [|c s]; simpl.
  - split; [intros; apply blank_nil | constructor].
  - rewrite Forall_singleton. done.
Qed.

(** When all the text [itertext] yields is blank, so is the text of every
    element of the tree and the tail of every element below its root. *)
Lemma itertext_blank_inv e :
  Forall blank (itertext e) →
  Forall (λ x, blank_opt (text x)) (iter e)
  ∧ Forall (λ x, blank_opt (tail x)) (flat_map iter (children e)).
Proof.
  induction e as [tg tx tl cs IH] using Element_children_ind.
  simpl. rewrite Forall_app, Forall_blank_yield_if, Forall_cons.
  intros [Htx Hcs]. simpl.
  rewrite !Forall_flat_map. rewrite Forall_flat_map in Hcs.
  enough (Forall (λ c, Forall (λ x, blank_opt (text x)) (iter c)
                       ∧ Forall (λ x, blank_opt (tail x)) (iter c)) cs) as H.
  { repeat split; [done | |]; eapply Forall_impl; eauto; by intros c []. }
  induction cs as [|c cs IHcs]; [constructor|].
  apply Forall_cons in IH as [IHc IH]. apply Forall_cons in Hcs as [Hc Hcs].
  apply Forall_app in Hc as [Hc Htl]. apply Forall_blank_yield_if in Htl.
  destruct (IHc Hc) as [Htexts Htails].
  constructor; [|by apply IHcs].
  split; [done|]. rewrite iter_unfold. by constructor.
Qed.

Lemma append_if_text_blank t acc : blank_opt t → append_if_text t acc = acc.
Proof.
  destruct t as [s|]; simpl; [|done]. unfold blank. intros ->.
  by rewrite andb_false_r.
Qed.

Lemma append_if_text_nonblank s acc :
  ¬ blank s → append_if_text (Some s) acc = acc ++ [strip s].
Proof.
  unfold blank. intros Hs. simpl.
  assert (s ≠ []) as Hne by (intros ->; by apply Hs).
  apply truthy_true in Hs, Hne. by rewrite Hs, Hne.
Qed.

Lemma walk_elements_app (es es' : list Element) acc :
  walk_elements (es ++ es') acc = walk_elements es' (walk_elements es acc).
Proof. revert acc. induction es as [|x es IH]; intros acc; simpl; [done | apply IH]. Qed.

Lemma walk_elements_blank (es : list Element) acc :
  Forall (λ x, blank_opt (text x)) es → Forall (λ x, blank_opt (tail x)) es →
  walk_elements es acc = acc.
Proof.
  induction es as [|x es IH]; simpl; [done|].
  rewrite !Forall_cons. intros [Hx Hes] [Hx' Hes'].
  rewrite !append_if_text_blank by done. by apply IH.
Qed.

Lemma collect_paragraphs_app (ps ps' : list Element) acc :
  collect_paragraphs (ps ++ ps') acc
  = collect_paragraphs ps' (collect_paragraphs ps acc).
Proof.
  revert acc. induction ps as [|x ps IH]; intros acc; simpl; [done|].
  destruct (truthy (strip (all_text_of x))); apply IH.
Qed.

Lemma collect_paragraphs_blank (ps : list Element) acc :
  Forall (λ para, blank (all_text_of para)) ps → collect_paragraphs ps acc = acc.
Proof.
  induction ps as [|x ps IH]; simpl; [done|].
  rewrite Forall_cons. unfold blank at 1. intros [-> Hps]. simpl. by apply IH.
Qed.

(** After tier 2 nothing is collected only if the whole text is blank. *)
Lemma tier2_nil root : tier2 root = [] → tier1 root = [] ∧ blank (all_text_of root).
Proof.
  unfold tier2, collect_all_text.
  destruct (tier1 root) as [|x xs]; [|done].
  destruct (truthy (strip (all_text_of root))) eqn:H; [done|].
  by apply truthy_false in H.
Qed.

(** Tier 3, once reached, can only find the tail of the root itself. *)
Lemma tier3_after_empty_tier2 root :
  tier2 root = [] →
  Forall (λ x, blank_opt (tail x)) (flat_map iter (children root))
  ∧ tier3 root = append_if_text (tail root) [].
Proof.
  intros H2. destruct (tier2_nil root H2) as [_ Hall].
  apply blank_join_empty_sep, itertext_blank_inv in Hall as [Htexts Htails].
  split; [done|].
  unfold tier3, collect_nodes. rewrite H2, iter_unfold. simpl.
  rewrite iter_unfold in Htexts. apply Forall_cons in Htexts as [Hroot Htexts].
  rewrite (append_if_text_blank (text root)) by done.
  by apply walk_elements_blank.
Qed.

End TreeFacts.

(** ** The fallback's tiers: claims C5, C6 and C8 *)

(** C5. When no paragraph element found by the scan has non-whitespace
    text, but the concatenated text under the root is not whitespace-only,
    [_extract_formatted_text] returns that concatenation trimmed, and it is
    the sole item collected. *)
Theorem tier2_returns_whole_tree_text (root : Element) :
  Forall (λ para, blank (all_text_of para)) (findall_descendants w_p root) →
  ¬ blank (all_text_of root) →
  tier3 root = [strip (all_text_of root)]
  ∧ _extract_formatted_text root = strip (all_text_of root).
Proof.
  intros Hparas Hroot.
  assert (tier2 root = [strip (all_text_of root)]) as H2.
  { unfold tier2, tier1. rewrite collect_paragraphs_blank by done. simpl.
    apply truthy_true in Hroot. by rewrite Hroot. }
  unfold _extract_formatted_text, tier3. by rewrite H2.
Qed.

Lemma tier2_returns_whole_tree_text_witness :
  findall_descendants w_p root_text_only = [Elem w_p (Some (lit " ")) None []]
  ∧ _extract_formatted_text root_text_only = lit "hello".
Proof.
  split; [reflexivity|].
  destruct (tier2_returns_whole_tree_text root_text_only) as [_ ->].
  - repeat constructor.
  - discriminate.
  - reflexivity.
Defined.

(** C6, as the code has it. When tiers 1 and 2 yield no text, no element
    below the root carries non-whitespace tail text (tier 2 reads every such
    tail); tier 3 then runs, and what it collects is the tail of the root
    element itself: if that tail is not whitespace-only, the result is that
    tail trimmed, as the only item; if the root has no tail (as in every
    tree the parser returns) or a blank one, the result is empty. *)
Theorem tier3_collects_root_tail_only (root : Element) :
  tier2 root = [] →
  Forall (λ e, blank_opt (tail e)) (flat_map iter (children root))
  ∧ tier3 root = append_if_text (tail root) []
  ∧ (∀ s, tail root = Some s → ¬ blank s →
       tier3 root = [strip s] ∧ _extract_formatted_text root = strip s)
  ∧ (blank_opt (tail root) →
       tier3 root = [] ∧ _extract_formatted_text root = []).
Proof.
  intros H2. destruct (tier3_after_empty_tier2 root H2) as [Htails H3].
  split_and!; [done | done | |].
  - intros s Hs Hnb.
    assert (tier3 root = [strip s]) as H3'.
    { rewrite H3, Hs. by rewrite append_if_text_nonblank. }
    split; [done|]. unfold _extract_formatted_text. by rewrite H3'.
  - intros Hb.
    assert (tier3 root = []) as H3' by (by rewrite H3, append_if_text_blank).
    split; [done|]. unfold _extract_formatted_text. by rewrite H3'.
Qed.

Lemma tier3_collects_root_tail_only_witness :
  tier2 lone_with_tail = []
  ∧ _extract_formatted_text lone_with_tail = lit "t".
Proof.
  split; [reflexivity|].
  destruct (tier3_collects_root_tail_only lone_with_tail eq_refl)
    as (_ & _ & H & _).
  destruct (H (lit " t ") eq_refl) as [_ ->]; [discriminate | reflexivity].
Defined.

(** C6, as stated, describes a tree that does not exist: tier 2 yielding
    nothing excludes non-whitespace tail text below the root. On
    [<r><a/>x<b/>y</r>], where no element has text and the paragraph scan
    finds nothing, the tails are returned by tier 2 as the single item
    ["xy"]; tier 3 does not run and ["x"] is no item of the result. *)
Lemma tier3_tail_scenario_impossible :
  ¬ (∃ root e s,
      tier2 root = [] ∧ e ∈ flat_map iter (children root)
      ∧ tail e = Some s ∧ ¬ blank s)
  ∧ (Forall (λ e, text e = None) (iter tails_only)
     ∧ tier1 tails_only = []
     ∧ tier2 tails_only = [lit "xy"]
     ∧ tier3 tails_only = [lit "xy"]
     ∧ (lit "x" ∉ tier3 tails_only)
     ∧ _extract_formatted_text tails_only = lit "xy").
Proof.
  split.
  - intros (root & e & s & H2 & He & Hs & Hnb).
    destruct (tier3_after_empty_tier2 root H2) as [Htails _].
    rewrite Forall_forall in Htails.
    specialize (Htails e He). rewrite Hs in Htails. by apply Hnb.
  - repeat split; try reflexivity.
    + repeat constructor.
    + intros H. apply list_elem_of_singleton in H. discriminate.
Qed.

(** C8. When all three tiers collect no items, [_extract_formatted_text]
    returns the empty string, which bears no ["Error"] prefix. *)
Theorem no_items_gives_empty_string (root : Element) :
  tier1 root = [] → tier2 root = [] → tier3 root = [] →
  _extract_formatted_text root = []
  ∧ startswith (_extract_formatted_text root) (lit "Error") = false.
Proof.
  intros _ _ H3. unfold _extract_formatted_text. rewrite H3. by split.
Qed.

Lemma no_items_gives_empty_string_witness :
  _extract_formatted_text whitespace_only = [].
Proof.
  by destruct (no_items_gives_empty_string whitespace_only eq_refl eq_refl eq_refl).
Defined.

(** ** The structured path: claims C4 and C7 *)

Section StructuredFacts.

Import DocumentProcessor.

Implicit Types (t ws : str) (acc : list str).

Lemma for_app {A S} (xs ys : list A) (body : A → S → result S) (s : S) :
  for_ (xs ++ ys) body s = for_ xs body s ≫= for_ ys body.
Proof.
  revert s. induction xs as [|x xs IH]; intros s; simpl; [done|].
  destruct (body x s) as [s'|e]; simpl; [apply IH | done].
Qed.

(** Deleting an element whose step changes nothing changes no result. *)
Lemma for_skip {A S} (xs ys : list A) (x : A) (body : A → S → result S) (s : S) :
  (∀ s', body x s' = Ok s') →
  for_ (xs ++ x :: ys) body s = for_ (xs ++ ys) body s.
Proof.
  intros Hx. rewrite !for_app. destruct (for_ xs body s) as [s'|e]; simpl; [|done].
  by rewrite Hx.
Qed.

Lemma trimmed_nonempty_cons t (ts : list str) :
  trimmed_nonempty (t :: ts)
  = if truthy (strip t) then strip t :: trimmed_nonempty ts
    else trimmed_nonempty ts.
Proof.
  unfold trimmed_nonempty. simpl. rewrite filter_cons.
  destruct (truthy (strip t)) eqn:H.
  - apply truthy_true in H. by rewrite decide_True.
  - apply truthy_false in H. rewrite decide_False; [done | by intros []].
Qed.

Lemma paragraph_step_blank (p : Paragraph) ws acc :
  paragraph_text p = Ok ws → blank ws → paragraph_step p acc = Ok acc.
Proof.
  unfold paragraph_step, blank. intros -> Hws. simpl. by rewrite Hws.
Qed.

Lemma cell_step_blank (c : Cell) ws acc :
  cell_text c = Ok ws → blank ws → cell_step c acc = Ok acc.
Proof.
  unfold cell_step, blank. intros -> Hws. simpl. by rewrite Hws.
Qed.

Lemma for_plain_paragraphs (ts : list str) acc :
  for_ (map plain_paragraph ts) paragraph_step acc
  = Ok (acc ++ trimmed_nonempty ts).
Proof.
  revert acc. induction ts as [|t ts IH]; intros acc; simpl.
  - by rewrite app_nil_r.
  - rewrite trimmed_nonempty_cons. unfold paragraph_step. simpl.
    destruct (truthy (strip t)); simpl; rewrite IH; [|done].
    by rewrite <- app_assoc.
Qed.

Lemma for_plain_cells (ts : list str) acc :
  for_ (map plain_cell ts) cell_step acc = Ok (acc ++ trimmed_nonempty ts).
Proof.
  revert acc. induction ts as [|t ts IH]; intros acc; simpl.
  - by rewrite app_nil_r.
  - rewrite trimmed_nonempty_cons. unfold cell_step. simpl.
    destruct (truthy (strip t)); simpl; rewrite IH; [|done].
    by rewrite <- app_assoc.
Qed.

Lemma row_step_plain (cells : list str) acc :
  row_step (plain_row cells) acc = Ok (acc ++ spec_row_item cells).
Proof.
  unfold row_step, spec_row_item. simpl. rewrite for_plain_cells. simpl.
  destruct (trimmed_nonempty cells); simpl; [by rewrite app_nil_r | done].
Qed.

Lemma for_plain_rows (rows : list (list str)) acc :
  for_ (map plain_row rows) row_step acc
  = Ok (acc ++ flat_map spec_row_item rows).
Proof.
  revert acc. induction rows as [|r rows IH]; intros acc; simpl.
  - by rewrite app_nil_r.
  - rewrite row_step_plain. simpl. rewrite IH. by rewrite <- app_assoc.
Qed.

Lemma table_step_plain (rows : list (list str)) acc :
  table_step (plain_table rows) acc = Ok (acc ++ flat_map spec_row_item rows).
Proof. unfold table_step. simpl. apply for_plain_rows. Qed.

Lemma for_plain_tables (tables : list (list (list str))) acc :
  for_ (map plain_table tables) table_step acc
  = Ok (acc ++ flat_map (flat_map spec_row_item) tables).
Proof.
  revert acc. induction tables as [|tb tables IH]; intros acc; simpl.
  - by rewrite app_nil_r.
  - rewrite table_step_plain. simpl. rewrite IH. by rewrite <- app_assoc.
Qed.

(** The structured path computes the output of section 4.1. *)
Lemma structured_text_plain (d : PlainDocument) :
  structured_text (loaded d) = Ok (spec_structured_output d).
Proof.
  unfold structured_text, spec_structured_output, spec_items. simpl.
  rewrite for_plain_paragraphs. simpl. by rewrite for_plain_tables.
Qed.

End StructuredFacts.

(** C7. An empty or whitespace-only content [ws] contributes no item, at
    every tier: a paragraph or a cell of the structured path reading [ws]
    can be deleted without changing what is collected (and a row whose cells
    are all blank appends nothing); so can a paragraph element of tier 1
    whose text is [ws]; tier 2 collects nothing from a whole-tree text [ws];
    and in the walk of tier 3 a text or a tail [ws] appends nothing. *)
Theorem whitespace_contributes_no_item (ws : str) :
  blank ws →
  (∀ (p : Paragraph) before after acc, paragraph_text p = Ok ws →
     for_ (before ++ p :: after) DocumentProcessor.paragraph_step acc
     = for_ (before ++ after) DocumentProcessor.paragraph_step acc)
  ∧ (∀ (c : Cell) before after acc, cell_text c = Ok ws →
     for_ (before ++ c :: after) DocumentProcessor.cell_step acc
     = for_ (before ++ after) DocumentProcessor.cell_step acc)
  ∧ (∀ (row : Row) cells acc, row_cells row = Ok cells →
     Forall (λ c, cell_text c = Ok ws) cells →
     DocumentProcessor.row_step row acc = Ok acc)
  ∧ (∀ (para : Element) before after acc, all_text_of para = ws →
     collect_paragraphs (before ++ para :: after) acc
     = collect_paragraphs (before ++ after) acc)
  ∧ (∀ (root : Element), all_text_of root = ws → collect_all_text root [] = [])
  ∧ (∀ (e : Element) before after acc, text e = Some ws →
     walk_elements (before ++ e :: after) acc
     = walk_elements after (append_if_text (tail e) (walk_elements before acc)))
  ∧ (∀ (e : Element) before after acc, tail e = Some ws →
     walk_elements (before ++ e :: after) acc
     = walk_elements after (append_if_text (text e) (walk_elements before acc))).
Proof.
  intros Hws. repeat split.
  - intros p before after acc Hp. apply for_skip. intros acc'.
    by apply (paragraph_step_blank p ws).
  - intros c before after acc Hc. apply for_skip. intros acc'.
    by apply (cell_step_blank c ws).
  - intros row cells acc Hrow Hcells. unfold DocumentProcessor.row_step.
    rewrite Hrow. simpl.
    assert (for_ cells DocumentProcessor.cell_step [] = Ok []) as ->; [|done].
    clear Hrow. induction Hcells as [|c cells Hc _ IH]; simpl; [done|].
    rewrite (cell_step_blank c ws) by done. exact IH.
  - intros para before after acc Hpara. rewrite !collect_paragraphs_app. simpl.
    rewrite Hpara. unfold blank in Hws. by rewrite Hws.
  - intros root Hroot. unfold collect_all_text. rewrite Hroot.
    unfold blank in Hws. by rewrite Hws.
  - intros e before after acc He. rewrite walk_elements_app. simpl. rewrite He.
    by rewrite (append_if_text_blank (Some ws)).
  - intros e before after acc He. rewrite walk_elements_app. simpl. rewrite He.
    by rewrite (append_if_text_blank (Some ws)).
Qed.

Lemma whitespace_contributes_no_item_witness :
  blank some_whitespace
  ∧ for_ (map plain_paragraph [lit "A"; some_whitespace; lit "B"])
      DocumentProcessor.paragraph_step [] = Ok [lit "A"; lit "B"]
  ∧ for_ (map plain_cell [lit "A"; some_whitespace; lit "B"])
      DocumentProcessor.cell_step [] = Ok [lit "A"; lit "B"]
  ∧ DocumentProcessor.row_step (plain_row [some_whitespace; some_whitespace])
      [lit "A"] = Ok [lit "A"]
  ∧ collect_paragraphs [Elem w_p (Some some_whitespace) None []] [] = []
  ∧ collect_all_text (Elem (lit "r") (Some some_whitespace) None []) [] = []
  ∧ walk_elements [Elem (lit "r") (Some some_whitespace) (Some (lit "t")) []] []
    = [lit "t"].
Proof.
  destruct (whitespace_contributes_no_item some_whitespace eq_refl)
    as (Hp & Hc & Hrow & H1 & H2 & H3 & _).
  split_and!.
  - reflexivity.
  - by rewrite (Hp (plain_paragraph some_whitespace)
                  [plain_paragraph (lit "A")] [plain_paragraph (lit "B")]).
  - by rewrite (Hc (plain_cell some_whitespace)
                  [plain_cell (lit "A")] [plain_cell (lit "B")]).
  - apply (Hrow _ (map plain_cell [some_whitespace; some_whitespace]));
      [reflexivity | repeat constructor].
  - by rewrite (H1 (Elem w_p (Some some_whitespace) None []) [] []).
  - by apply H2.
  - by rewrite (H3 (Elem (lit "r") (Some some_whitespace) (Some (lit "t")) [])
                  [] []).
Defined.

(** ** Effects: the methods never read the trace *)

Section Oblivious.

Context {A B : Type}.

Lemma oblivious_ret (a : A) : oblivious (mret a : M A).
Proof. exists (Ok a), []. intros tr. by rewrite app_nil_r. Qed.

Lemma oblivious_call (ev : event) (answer : result A) :
  oblivious (call ev answer).
Proof. by exists answer, [ev]. Qed.

Lemma oblivious_eval (r : result A) : oblivious (eval r).
Proof. exists r, []. intros tr. unfold eval. by rewrite app_nil_r. Qed.

Lemma oblivious_bind (m : M A) (f : A → M B) :
  oblivious m → (∀ a, oblivious (f a)) → oblivious (m ≫= f).
Proof.
  intros (out & evs & Hm) Hf. destruct out as [a|e].
  - destruct (Hf a) as (out' & evs' & Hfa). exists out', (evs ++ evs').
    intros tr. unfold mbind, M_bind. by rewrite Hm, Hfa, app_assoc.
  - exists (Raise e), evs. intros tr. unfold mbind, M_bind. by rewrite Hm.
Qed.

Lemma oblivious_try_except (body : M A) (handler : exn → M A) :
  oblivious body → (∀ e, oblivious (handler e)) →
  oblivious (try_except body handler).
Proof.
  intros (out & evs & Hm) Hh. destruct out as [a|e].
  - exists (Ok a), evs. intros tr. unfold try_except. by rewrite Hm.
  - destruct (Hh e) as (out' & evs' & He). exists out', (evs ++ evs').
    intros tr. unfold try_except. by rewrite Hm, He, app_assoc.
Qed.

Lemma oblivious_with (enter : M A) (released : event) (body : A → M B) :
  oblivious enter → (∀ r, oblivious (body r)) →
  oblivious (with_ enter released body).
Proof.
  intros (out & evs & Hm) Hb. destruct out as [r|e].
  - destruct (Hb r) as (out' & evs' & Hr). exists out', (evs ++ evs' ++ [released]).
    intros tr. unfold with_. by rewrite Hm, Hr, !app_assoc.
  - exists (Raise e), evs. intros tr. unfold with_. by rewrite Hm.
Qed.

End Oblivious.

Section MethodFacts.

Import DocumentProcessor.

Variable env : Env.

Implicit Types (file_path : str) (tr : trace).

Lemma manual_body_oblivious file_path : oblivious (manual_body env file_path).
Proof.
  apply oblivious_with; [apply oblivious_call|]. intros docx_zip.
  destruct (contains _ _); [|apply oblivious_ret].
  apply oblivious_with; [apply oblivious_call|]. intros xml_file.
  apply oblivious_bind; [apply oblivious_call|]. intros root. apply oblivious_ret.
Qed.

Lemma _extract_docx_manual_oblivious file_path :
  oblivious (_extract_docx_manual env file_path).
Proof.
  apply oblivious_try_except; [apply manual_body_oblivious|].
  intros e. apply oblivious_ret.
Qed.

Lemma extract_docx_content_oblivious file_path :
  oblivious (DocumentProcessor.extract_docx_content env file_path).
Proof.
  apply oblivious_try_except.
  - apply oblivious_bind; [apply oblivious_call|]. intros doc. apply oblivious_eval.
  - intros e. apply oblivious_bind; [apply oblivious_call|]. intros _.
    apply _extract_docx_manual_oblivious.
Qed.

Lemma get_document_metadata_oblivious file_path :
  oblivious (get_document_metadata env file_path).
Proof.
  apply oblivious_try_except.
  - apply oblivious_bind; [apply oblivious_call|]. intros sz. apply oblivious_ret.
  - intros e. apply oblivious_ret.
Qed.

Lemma process_document_oblivious file_path :
  oblivious (process_document env file_path).
Proof.
  apply oblivious_bind; [apply get_document_metadata_oblivious|].
  intros metadata. destruct (bool_decide _); [apply oblivious_ret|].
  apply oblivious_bind; [|intros content; apply oblivious_ret].
  destruct (bool_decide _); [apply extract_docx_content_oblivious | apply oblivious_ret].
Qed.

End MethodFacts.

Section Totality.

Import DocumentProcessor.

Variable env : Env.

Implicit Types (file_path : str) (tr : trace).

(** The fallback always returns a string. *)
Lemma _extract_docx_manual_returns file_path tr :
  ∃ s tr', _extract_docx_manual env file_path tr = (Ok s, tr').
Proof.
  unfold _extract_docx_manual, try_except.
  destruct (manual_body env file_path tr) as [[s|e] tr']; simpl; eauto.
Qed.

(** What the method does, by what the libraries and [print] answer. *)
Lemma extract_docx_content_cases file_path tr :
  DocumentProcessor.extract_docx_content env file_path tr
  = match Document env file_path ≫= structured_text with
    | Ok s => (Ok s, tr ++ [OpenDocument file_path])
    | Raise e =>
        match py_print env (lit "Error extracting DOCX content with python-docx: "
                            ++ exn_str e) with
        | Ok _ =>
            _extract_docx_manual env file_path
              (tr ++ [OpenDocument file_path;
                      Stdout (lit "Error extracting DOCX content with python-docx: "
                              ++ exn_str e)])
        | Raise e' =>
            (Raise e',
             tr ++ [OpenDocument file_path;
                    Stdout (lit "Error extracting DOCX content with python-docx: "
                            ++ exn_str e)])
        end
    end.
Proof.
  unfold DocumentProcessor.extract_docx_content, try_except, structured_body,
    call, eval, mbind, M_bind.
  destruct (Document env file_path) as [doc|e]; simpl.
  - destruct (structured_text doc) as [s|e]; [done|].
    destruct (py_print env _) as [[]|e']; by rewrite <- app_assoc.
  - destruct (py_print env _) as [[]|e']; by rewrite <- app_assoc.
Qed.

(** The method returns a string whenever the standard output takes what
    is printed. *)
Lemma extract_docx_content_returns file_path tr :
  (∀ line, py_print env line = Ok ()) →
  ∃ s tr', DocumentProcessor.extract_docx_content env file_path tr = (Ok s, tr').
Proof.
  intros Hprint. rewrite extract_docx_content_cases.
  destruct (Document env file_path ≫= structured_text) as [s|e]; [eauto|].
  rewrite Hprint. apply _extract_docx_manual_returns.
Qed.

End Totality.

(** ** The methods: claims C1 to C4, C9 and C10 *)

(** C4. For a document that python-docx loads, the structured path returns
    the output of section 4.1: the trimmed non-empty paragraph texts, then
    for each row with a non-empty cell its trimmed non-empty cell texts
    joined by [" | "], all joined by a blank line. Two paragraphs and a 2x2
    table give ["Para1\n\nPara2\n\nA | B\n\nC | D"], as the example that
    follows shows. *)
Theorem structured_output_matches_spec
    (env : Env) (file_path : str) (d : PlainDocument) (tr : trace) :
  Document env file_path = Ok (loaded d) →
  DocumentProcessor.extract_docx_content env file_path tr
  = (Ok (spec_structured_output d), tr ++ [OpenDocument file_path]).
Proof.
  intros Hdoc.
  unfold DocumentProcessor.extract_docx_content, try_except,
    DocumentProcessor.structured_body, call, eval, mbind, M_bind.
  by rewrite Hdoc, structured_text_plain.
Qed.

Lemma structured_output_matches_spec_witness :
  DocumentProcessor.extract_docx_content host_with_report (lit "report.docx") []
  = (Ok (lit "Para1" ++ nl ++ nl ++ lit "Para2" ++ nl ++ nl
         ++ lit "A | B" ++ nl ++ nl ++ lit "C | D"),
     [OpenDocument (lit "report.docx")]).
Proof.
  by rewrite (structured_output_matches_spec host_with_report
                (lit "report.docx") two_by_two [] eq_refl).
Defined.

(** C2. When the archive opens but lists no entry ['word/document.xml'],
    the fallback returns exactly the sentinel; it opens and closes the
    archive and does nothing else. *)
Theorem missing_markup_entry_sentinel
    (env : Env) (file_path : str) (docx_zip : Archive) (tr : trace) :
  ZipFile env file_path = Ok docx_zip →
  lit "word/document.xml" ∉ namelist docx_zip →
  DocumentProcessor._extract_docx_manual env file_path tr
  = (Ok (lit "Error: Could not find document.xml in DOCX file"),
     tr ++ [OpenArchive file_path; CloseArchive file_path]).
Proof.
  intros Hzip Hno.
  unfold DocumentProcessor._extract_docx_manual, try_except,
    DocumentProcessor.manual_body, with_, call, contains.
  rewrite Hzip, bool_decide_eq_false_2 by done. simpl.
  by rewrite <- app_assoc.
Qed.

Lemma missing_markup_entry_sentinel_witness :
  DocumentProcessor._extract_docx_manual host_with_broken_docx (lit "broken.docx") []
  = (Ok (lit "Error: Could not find document.xml in DOCX file"),
     [OpenArchive (lit "broken.docx"); CloseArchive (lit "broken.docx")]).
Proof.
  apply (missing_markup_entry_sentinel host_with_broken_docx (lit "broken.docx")
           archive_without_markup []); [reflexivity|].
  intros H. apply list_elem_of_singleton in H. discriminate.
Defined.

(** C3. Extraction can let an exception through, at one place: the
    [print] of the handler of the structured path, which no [try] guards.
    The fallback returns a string for every input. The method returns the
    structured text when the structured path succeeds; when it fails, the
    failure is printed: if the print succeeds the answer is the fallback's,
    and if the print raises, that exception leaves the method and the
    fallback is not run. *)
Theorem extraction_raises_only_through_print
    (env : Env) (file_path : str) (tr : trace) :
  (∃ s tr', DocumentProcessor._extract_docx_manual env file_path tr = (Ok s, tr'))
  ∧ DocumentProcessor.extract_docx_content env file_path tr
    = match Document env file_path ≫= DocumentProcessor.structured_text with
      | Ok s => (Ok s, tr ++ [OpenDocument file_path])
      | Raise e =>
          match py_print env (lit "Error extracting DOCX content with python-docx: "
                              ++ exn_str e) with
          | Ok _ =>
              DocumentProcessor._extract_docx_manual env file_path
                (tr ++ [OpenDocument file_path;
                        Stdout (lit "Error extracting DOCX content with python-docx: "
                                ++ exn_str e)])
          | Raise e' =>
              (Raise e',
               tr ++ [OpenDocument file_path;
                      Stdout (lit "Error extracting DOCX content with python-docx: "
                              ++ exn_str e)])
          end
      end.
Proof.
  split.
  - apply _extract_docx_manual_returns.
  - apply extract_docx_content_cases.
Qed.

(** For ['\udcff.docx'], which python-docx cannot load, on a strict UTF-8
    standard output: the message to print holds the file name, the print
    raises, and the exception leaves [extract_docx_content]. *)
Lemma extraction_raises_only_through_print_witness :
  DocumentProcessor.extract_docx_content host_with_strict_stdout surrogate_path []
  = (Raise (Exception (lit "'utf-8' codec can't encode character: surrogates not allowed")),
     [OpenDocument surrogate_path;
      Stdout (lit "Error extracting DOCX content with python-docx: Package not found at '"
              ++ surrogate_path ++ lit "'")]).
Proof.
  destruct (extraction_raises_only_through_print host_with_strict_stdout
              surrogate_path []) as [_ ->].
  reflexivity.
Defined.

(** C10. When the file's stats cannot be read, [process_document] returns
    the empty string with a metadata dictionary holding the key ['error']
    alone: ['content_length'] and ['extraction_success'] are absent, and
    nothing but the [os.stat] call happened (no extraction). *)
Theorem failed_metadata_short_circuits
    (env : Env) (file_path : str) (e : exn) (tr : trace) :
  os_stat_st_size env file_path = Raise e →
  ∃ metadata : gmap string pyval,
    DocumentProcessor.process_document env file_path tr
    = (Ok ([], metadata), tr ++ [Stat file_path])
    ∧ metadata = <["error" := VStr (lit "Could not get metadata: " ++ exn_str e)]> ∅
    ∧ is_Some (metadata !! "error")
    ∧ metadata !! "content_length" = None
    ∧ metadata !! "extraction_success" = None.
Proof.
  intros Hstat. eexists. split_and!; [|reflexivity| | |].
  - unfold DocumentProcessor.process_document,
      DocumentProcessor.get_document_metadata, try_except, call, mbind, M_bind.
    rewrite Hstat. simpl. rewrite bool_decide_eq_true_2; [done|].
    rewrite lookup_insert_eq. by eexists.
  - rewrite lookup_insert_eq. by eexists.
  - by rewrite lookup_insert_ne.
  - by rewrite lookup_insert_ne.
Qed.

Lemma failed_metadata_short_circuits_witness :
  ∃ metadata : gmap string pyval,
    DocumentProcessor.process_document empty_host (lit "missing.docx") []
    = (Ok ([], metadata), [Stat (lit "missing.docx")])
    ∧ metadata !! "extraction_success" = None.
Proof.
  destruct (failed_metadata_short_circuits empty_host (lit "missing.docx")
              (no_such_file (lit "missing.docx")) [] eq_refl)
    as (m & Hrun & _ & _ & _ & Hflag).
  exists m. split; [exact Hrun | exact Hflag].
Defined.

(** C1, as the code has it. When the file's stats can be read and the
    lower-cased extension is not ['.docx'] (['.doc'] included), no
    extraction is attempted: [process_document] returns
    ["Unsupported file format: "] followed by that extension, and records
    its length as ['content_length']. *)
Theorem unsupported_extension_message
    (env : Env) (file_path : str) (size : Z) (tr : trace) :
  os_stat_st_size env file_path = Ok size →
  str_lower env (os_path_splitext env file_path).2 ≠ lit ".docx" →
  ∃ metadata : gmap string pyval,
    DocumentProcessor.process_document env file_path tr
    = (Ok (lit "Unsupported file format: "
           ++ str_lower env (os_path_splitext env file_path).2, metadata),
       tr ++ [Stat file_path])
    ∧ metadata !! "content_length"
      = Some (VInt (len (lit "Unsupported file format: "
                         ++ str_lower env (os_path_splitext env file_path).2))).
Proof.
  intros Hstat Hext. eexists. split.
  - unfold DocumentProcessor.process_document,
      DocumentProcessor.get_document_metadata, try_except, call, mbind, M_bind.
    rewrite Hstat. simpl.
    rewrite bool_decide_eq_false_2.
    + rewrite bool_decide_eq_false_2 by done. reflexivity.
    + rewrite !lookup_insert_ne by done. rewrite lookup_empty. by intros [? ?].
  - rewrite lookup_insert_ne by done. by rewrite lookup_insert_eq.
Qed.

Lemma unsupported_extension_message_witness :
  ∃ metadata : gmap string pyval,
    DocumentProcessor.process_document host_with_doc (lit "notes.doc") []
    = (Ok (lit "Unsupported file format: .doc", metadata),
       [Stat (lit "notes.doc")])
    ∧ metadata !! "content_length" = Some (VInt 29).
Proof.
  destruct (unsupported_extension_message host_with_doc (lit "notes.doc") 10 []
              eq_refl) as (m & Hrun & Hlen); [discriminate|].
  exists m. split; [exact Hrun | exact Hlen].
Defined.

(** C1, as stated, fails twice. For [notes.doc], whose stats can be read,
    the content is the unsupported-format string but ['extraction_success']
    is set to true (the string is non-empty and bears no ["Error"] prefix).
    For [missing.doc], whose stats cannot be read, the content is the empty
    string and the flag is absent. *)
Lemma unsupported_extension_flag_not_false :
  (∃ metadata : gmap string pyval,
      (DocumentProcessor.process_document host_with_doc (lit "notes.doc") []).1
      = Ok (lit "Unsupported file format: .doc", metadata)
      ∧ metadata !! "extraction_success" = Some (VBool true))
  ∧ (∃ metadata : gmap string pyval,
      (DocumentProcessor.process_document host_with_doc (lit "missing.doc") []).1
      = Ok ([], metadata)
      ∧ metadata !! "extraction_success" = None).
Proof.
  split; eexists; (split; [reflexivity|]).
  - by rewrite lookup_insert_eq.
  - by rewrite lookup_insert_ne.
Qed.

(** * Properties beyond the specification *)

(** ** Trimmed strings *)

Section TightFacts.

Implicit Types (s x sep : str) (c : char) (items : list str).

Lemma lstrip_starts_tight s : starts_tight s = true → lstrip s = s.
Proof.
  destruct s as [|c s]; simpl; [done|].
  by destruct (isspace c).
Qed.

Lemma lstrip_tight_or_nil s : lstrip s = [] ∨ starts_tight (lstrip s) = true.
Proof.
  induction s as [|c s IH]; simpl; [by left|].
  destruct (isspace c) eqn:Hc; [exact IH|]. right. simpl. by rewrite Hc.
Qed.

Lemma lstrip_idemp s : lstrip (lstrip s) = lstrip s.
Proof.
  destruct (lstrip_tight_or_nil s) as [->|H]; [done|].
  by apply lstrip_starts_tight.
Qed.

Lemma lstrip_snoc_nonspace s c :
  isspace c = false → lstrip (s ++ [c]) = lstrip s ++ [c].
Proof.
  intros Hc. induction s as [|a s IH]; simpl.
  - by rewrite Hc.
  - by destruct (isspace a).
Qed.

Lemma starts_tight_app s x : starts_tight s = true → starts_tight (s ++ x) = true.
Proof. by destruct s. Qed.

(** Trimming on the right keeps a first code point that is not whitespace. *)
Lemma rstrip_starts_tight s : starts_tight s = true → starts_tight (rstrip s) = true.
Proof.
  destruct s as [|c s]; simpl; [done|]. intros Hc.
  apply negb_true_iff in Hc. unfold rstrip. simpl.
  rewrite lstrip_snoc_nonspace by done. rewrite rev_app_distr. simpl.
  by rewrite Hc.
Qed.

(** A tight string is its own [strip()]. *)
Lemma tight_strip s : tight s → strip s = s.
Proof.
  intros [Hl Hr]. unfold strip, rstrip.
  rewrite (lstrip_starts_tight s Hl), (lstrip_starts_tight (rev s) Hr).
  apply rev_involutive.
Qed.

Lemma tight_nonempty s : tight s → s ≠ [].
Proof. intros [Hl _] ->. done. Qed.

(** What [strip()] returns is empty or tight. *)
Lemma strip_tight s : strip s ≠ [] → tight (strip s).
Proof.
  intros Hne. unfold strip in *.
  destruct (lstrip_tight_or_nil s) as [Hnil|Hl].
  { exfalso. apply Hne. by rewrite Hnil. }
  split.
  - by apply rstrip_starts_tight.
  - unfold rstrip in *. rewrite rev_involutive.
    destruct (lstrip_tight_or_nil (rev (lstrip s))) as [Hnil|Hr]; [|done].
    exfalso. apply Hne. by rewrite Hnil.
Qed.

Lemma strip_idemp s : strip (strip s) = strip s.
Proof.
  destruct (decide (strip s = [])) as [->|Hne]; [done|].
  by apply tight_strip, strip_tight.
Qed.

Lemma join_cons_cons sep x y items :
  join sep (x :: y :: items) = x ++ sep ++ join sep (y :: items).
Proof. reflexivity. Qed.

Lemma join_snoc sep items x :
  items ≠ [] → join sep (items ++ [x]) = join sep items ++ sep ++ x.
Proof.
  induction items as [|y items IH]; [done|]. intros _.
  destruct items as [|z items]; [done|].
  change ((y :: z :: items) ++ [x]) with (y :: (z :: items) ++ [x]).
  change ((z :: items) ++ [x]) with (z :: items ++ [x]) at 1.
  rewrite !join_cons_cons.
  change (z :: items ++ [x]) with ((z :: items) ++ [x]).
  rewrite IH by done. by rewrite <- !app_assoc.
Qed.

(** Tight items joined by any separator make a tight string. *)
Lemma tight_join sep items : items ≠ [] → Forall tight items → tight (join sep items).
Proof.
  intros Hne Hall. split.
  - destruct items as [|x items]; [done|].
    apply Forall_cons in Hall as [[Hx _] _].
    destruct items; [done|]. rewrite join_cons_cons. by apply starts_tight_app.
  - destruct (exists_last Hne) as (init & x & ->).
    apply Forall_app in Hall as [_ Hx]. apply Forall_singleton in Hx as [_ Hx].
    destruct init as [|y init]; [done|].
    rewrite join_snoc by done. rewrite !rev_app_distr, <- !app_assoc.
    by apply starts_tight_app.
Qed.

(** So the joined text is its own [strip()], whatever the items. *)
Lemma strip_join_tight sep items :
  Forall tight items → strip (join sep items) = join sep items.
Proof.
  intros Hall. destruct items as [|x items]; [done|].
  by apply tight_strip, tight_join.
Qed.

(** Every item occurs in the joined text. *)
Lemma occurs_in_join sep items x : x ∈ items → occurs_in x (join sep items).
Proof.
  induction items as [|y items IH]; [by intros ?%elem_of_nil|].
  intros [->|Hx]%elem_of_cons.
  - destruct items as [|z items].
    + exists [], []. simpl. by rewrite app_nil_r.
    + exists [], (sep ++ join sep (z :: items)). by rewrite join_cons_cons.
  - destruct items as [|z items]; [by apply elem_of_nil in Hx|].
    destruct (IH Hx) as (pre & post & Hjoin).
    exists (y ++ sep ++ pre), post.
    rewrite join_cons_cons, Hjoin. by rewrite <- !app_assoc.
Qed.

(** The joined text begins like its first item. *)
Lemma startswith_app s x p : startswith s p = true → startswith (s ++ x) p = true.
Proof.
  revert s. induction p as [|a p IH]; intros s.
  - intros _. by destruct (s ++ x).
  - destruct s as [|b s]; simpl; [done|].
    intros [-> H]%andb_prop. simpl. by apply IH.
Qed.

Lemma startswith_join sep x items p :
  startswith x p = true → startswith (join sep (x :: items)) p = true.
Proof.
  intros H. destruct items; [done|]. rewrite join_cons_cons.
  by apply startswith_app.
Qed.

End TightFacts.

(** ** More on the fallback's text collection *)

Section FallbackFacts.

Implicit Types (e root para : Element) (acc : list str).

Lemma Forall_tight_trimmed_nonempty (texts : list str) :
  Forall tight (trimmed_nonempty texts).
Proof.
  unfold trimmed_nonempty. apply Forall_forall. intros x Hx.
  apply list_elem_of_filter in Hx as [Hne Hx].
  apply list_elem_of_fmap in Hx as (t & -> & _). by apply strip_tight.
Qed.

Lemma elem_of_trimmed_nonempty (texts : list str) (t : str) :
  t ∈ texts → ¬ blank t → strip t ∈ trimmed_nonempty texts.
Proof.
  intros Ht Hnb. unfold trimmed_nonempty. apply list_elem_of_filter. split; [done|].
  apply list_elem_of_fmap. eauto.
Qed.

Lemma trimmed_nonempty_nil (texts : list str) :
  trimmed_nonempty texts = [] ↔ Forall blank texts.
Proof.
  induction texts as [|t texts IH]; [by split; [constructor|]|].
  rewrite trimmed_nonempty_cons, Forall_cons.
  destruct (truthy (strip t)) eqn:H.
  - apply truthy_true in H. split; [done | by intros [? _]].
  - apply truthy_false in H. rewrite IH. by split; [|intros [_ ?]].
Qed.

(** Tier 1 collects the trimmed non-empty texts of the paragraphs found. *)
Lemma collect_paragraphs_trimmed (ps : list Element) acc :
  collect_paragraphs ps acc = acc ++ trimmed_nonempty (map all_text_of ps).
Proof.
  revert acc. induction ps as [|para ps IH]; intros acc; simpl.
  - by rewrite app_nil_r.
  - rewrite trimmed_nonempty_cons.
    destruct (truthy (strip (all_text_of para))); rewrite IH; [|done].
    by rewrite <- app_assoc.
Qed.

Lemma tier1_trimmed root :
  tier1 root = trimmed_nonempty (map all_text_of (findall_descendants w_p root)).
Proof. unfold tier1. by rewrite collect_paragraphs_trimmed. Qed.

Lemma append_if_text_tight (t : option str) acc :
  Forall tight acc → Forall tight (append_if_text t acc).
Proof.
  intros Hacc. destruct t as [s|]; simpl; [|done].
  destruct (truthy s); simpl; [|done].
  destruct (truthy (strip s)) eqn:H; [|done].
  apply truthy_true in H. apply Forall_app. split; [done|].
  apply Forall_singleton. by apply strip_tight.
Qed.

Lemma walk_elements_tight (es : list Element) acc :
  Forall tight acc → Forall tight (walk_elements es acc).
Proof.
  revert acc. induction es as [|e es IH]; intros acc Hacc; simpl; [done|].
  by apply IH, append_if_text_tight, append_if_text_tight.
Qed.

(** Whatever the tier, each item collected is trimmed and non-empty. *)
Lemma tier3_tight root : Forall tight (tier3 root).
Proof.
  assert (Forall tight (tier1 root)) as H1.
  { rewrite tier1_trimmed. apply Forall_tight_trimmed_nonempty. }
  assert (Forall tight (tier2 root)) as H2.
  { unfold tier2, collect_all_text. destruct (tier1 root) as [|x xs]; [|done].
    destruct (truthy (strip (all_text_of root))) eqn:H; [|done].
    apply truthy_true in H. apply Forall_singleton. by apply strip_tight. }
  unfold tier3, collect_nodes. destruct (tier2 root) as [|x xs]; [|done].
  by apply walk_elements_tight.
Qed.

Lemma tier3_of_tier1 root : tier1 root ≠ [] → tier3 root = tier1 root.
Proof.
  intros H. unfold tier3, tier2, collect_nodes, collect_all_text.
  by destruct (tier1 root).
Qed.

(** Blank text under an element is blank text under each element of its
    tree. *)
Lemma itertext_blank_below e :
  Forall blank (itertext e) → ∀ x, x ∈ iter e → Forall blank (itertext x).
Proof.
  induction e as [tg tx tl cs IH] using Element_children_ind.
  intros Hall x Hx. rewrite iter_unfold in Hx. simpl in Hx.
  apply elem_of_cons in Hx as [->|Hx]; [done|].
  simpl in Hall. apply Forall_app in Hall as [_ Hcs].
  rewrite Forall_flat_map in Hcs.
  apply list_elem_of_In, in_flat_map in Hx as (c & Hc & Hx).
  apply list_elem_of_In in Hc, Hx.
  rewrite Forall_forall in IH, Hcs.
  apply (IH c Hc); [|done].
  specialize (Hcs c Hc). by apply Forall_app in Hcs as [? _].
Qed.

Lemma findall_descendants_below (qname : str) root x :
  x ∈ findall_descendants qname root →
  ∃ c, c ∈ children root ∧ x ∈ iter c ∧ tag x = qname.
Proof.
  unfold findall_descendants, iter_tag.
  intros (c & Hc & Hx)%list_elem_of_In%in_flat_map.
  apply list_elem_of_In in Hc, Hx. apply list_elem_of_filter in Hx as [Htag Hx].
  eauto.
Qed.

(** When the whole text is blank, so is each paragraph found. *)
Lemma blank_paragraphs_of_blank_root root :
  blank (all_text_of root) →
  Forall (λ para, blank (all_text_of para)) (findall_descendants w_p root).
Proof.
  intros Hroot. apply blank_join_empty_sep in Hroot.
  apply Forall_forall. intros para Hpara.
  apply findall_descendants_below in Hpara as (c & Hc & Hpara & _).
  apply blank_join_empty_sep.
  apply (itertext_blank_below root Hroot).
  rewrite iter_unfold. apply elem_of_cons. right.
  apply list_elem_of_In, in_flat_map. exists c. by rewrite <- !list_elem_of_In.
Qed.

End FallbackFacts.

(** X1. The text the fallback collects never begins or ends with
    whitespace: it is its own [strip()], and it is empty or not blank. *)
Theorem fallback_text_is_trimmed (root : Element) :
  strip (_extract_formatted_text root) = _extract_formatted_text root
  ∧ (_extract_formatted_text root = [] ∨ ¬ blank (_extract_formatted_text root)).
Proof.
  unfold _extract_formatted_text. pose proof (tier3_tight root) as Htight.
  split; [by apply strip_join_tight|].
  destruct (tier3 root) as [|x items] eqn:H3; [by left|]. right.
  assert (tight (join (nl ++ nl) (x :: items))) as Hj by (by apply tight_join).
  unfold blank. rewrite (tight_strip _ Hj). by apply tight_nonempty.
Qed.

(** X2. The fallback returns the empty string exactly when all the text
    under the root is blank and the root has no tail or a blank one. *)
Theorem fallback_text_empty_iff (root : Element) :
  _extract_formatted_text root = []
  ↔ blank (all_text_of root) ∧ blank_opt (tail root).
Proof.
  split.
  - intros Hout.
    assert (tier3 root = []) as H3.
    { destruct (tier3 root) as [|x items] eqn:H3; [done|]. exfalso.
      pose proof (tier3_tight root) as Htight. rewrite H3 in Htight.
      apply (tight_nonempty (join (nl ++ nl) (x :: items))); [by apply tight_join|].
      unfold _extract_formatted_text in Hout. by rewrite H3 in Hout. }
    assert (tier2 root = []) as H2.
    { unfold tier3, collect_nodes in H3. by destruct (tier2 root). }
    destruct (tier2_nil root H2) as [_ Hall]. split; [done|].
    destruct (tier3_after_empty_tier2 root H2) as [_ Htail].
    rewrite H3 in Htail. destruct (tail root) as [s|]; [|done]. simpl.
    destruct (decide (blank s)) as [|Hnb]; [done|].
    rewrite append_if_text_nonblank in Htail by done. done.
  - intros [Hall Htail].
    assert (tier2 root = []) as H2.
    { unfold tier2, tier1.
      rewrite collect_paragraphs_blank by (by apply blank_paragraphs_of_blank_root).
      unfold collect_all_text. unfold blank in Hall. by rewrite Hall. }
    destruct (tier3_after_empty_tier2 root H2) as [_ H3].
    unfold _extract_formatted_text. by rewrite H3, append_if_text_blank.
Qed.

(** X3. As soon as one paragraph element below the root has non-blank
    text, the fallback returns the trimmed non-empty paragraph texts joined
    by a blank line, and nothing else: text outside the paragraphs is left
    out. The text of that paragraph, trimmed, occurs in the result. *)
Theorem fallback_paragraphs_take_over (root para : Element) :
  para ∈ findall_descendants w_p root →
  ¬ blank (all_text_of para) →
  _extract_formatted_text root
  = join (nl ++ nl)
      (trimmed_nonempty (map all_text_of (findall_descendants w_p root)))
  ∧ occurs_in (strip (all_text_of para)) (_extract_formatted_text root).
Proof.
  intros Hpara Hnb.
  assert (strip (all_text_of para) ∈ tier1 root) as Hin.
  { rewrite tier1_trimmed. apply elem_of_trimmed_nonempty; [|done].
    apply list_elem_of_fmap. eauto. }
  assert (tier3 root = tier1 root) as H3.
  { apply tier3_of_tier1. intros Hnil. rewrite Hnil in Hin.
    by apply elem_of_nil in Hin. }
  unfold _extract_formatted_text. rewrite H3. split.
  - by rewrite tier1_trimmed.
  - by apply occurs_in_join.
Qed.

Lemma fallback_paragraphs_take_over_witness :
  _extract_formatted_text mixed_text = lit "a" ++ nl ++ nl ++ lit "b".
Proof.
  destruct (fallback_paragraphs_take_over mixed_text
              (Elem w_p (Some (lit "b")) None [])) as [-> _].
  - apply elem_of_cons. right. apply elem_of_cons. by left.
  - discriminate.
  - reflexivity.
Defined.

(** ** More on the structured path *)

Section StructuredMore.

Import DocumentProcessor.

Implicit Types (acc : list str) (d : PlainDocument).

(** A property every step keeps is kept by the loop. *)
Lemma for_invariant {A S} (P : S → Prop) (body : A → S → result S)
    (xs : list A) (s s' : S) :
  (∀ x s1 s2, P s1 → body x s1 = Ok s2 → P s2) →
  P s → for_ xs body s = Ok s' → P s'.
Proof.
  intros Hstep. revert s. induction xs as [|x xs IH]; intros s Hs; simpl.
  - by intros [= <-].
  - destruct (body x s) as [s1|e] eqn:Hx; simpl; [|done].
    apply IH. by apply (Hstep x s).
Qed.

Lemma paragraph_step_tight (p : Paragraph) acc acc' :
  Forall tight acc → paragraph_step p acc = Ok acc' → Forall tight acc'.
Proof.
  unfold paragraph_step. intros Hacc.
  destruct (paragraph_text p) as [t|e]; simpl; [|done].
  destruct (truthy (strip t)) eqn:H; simpl; intros [= <-]; [|done].
  apply truthy_true in H. apply Forall_app. split; [done|].
  apply Forall_singleton. by apply strip_tight.
Qed.

Lemma cell_step_tight (c : Cell) acc acc' :
  Forall tight acc → cell_step c acc = Ok acc' → Forall tight acc'.
Proof.
  unfold cell_step. intros Hacc.
  destruct (cell_text c) as [t|e]; simpl; [|done].
  destruct (truthy (strip t)) eqn:H; simpl; intros [= <-]; [|done].
  apply truthy_true in H. apply Forall_app. split; [done|].
  apply Forall_singleton. by apply strip_tight.
Qed.

Lemma row_step_tight (row : Row) acc acc' :
  Forall tight acc → row_step row acc = Ok acc' → Forall tight acc'.
Proof.
  unfold row_step. intros Hacc.
  destruct (row_cells row) as [cells|e]; simpl; [|done].
  destruct (for_ cells cell_step []) as [row_text|e] eqn:Hcells; simpl; [|done].
  assert (Forall tight row_text) as Hrow.
  { apply (for_invariant (Forall tight) cell_step cells [] row_text);
      [apply cell_step_tight | constructor | done]. }
  destruct row_text as [|x row_text]; intros [= <-]; [done|].
  apply Forall_app. split; [done|]. apply Forall_singleton.
  by apply (tight_join (lit " | ") (x :: row_text)).
Qed.

Lemma table_step_tight (table : Table) acc acc' :
  Forall tight acc → table_step table acc = Ok acc' → Forall tight acc'.
Proof.
  unfold table_step. intros Hacc.
  destruct (table_rows table) as [rows|e]; simpl; [|done].
  apply (for_invariant (Forall tight) row_step); [apply row_step_tight | done].
Qed.

Lemma spec_items_tight d : Forall tight (spec_items d).
Proof.
  unfold spec_items. apply Forall_app. split.
  - apply Forall_tight_trimmed_nonempty.
  - rewrite Forall_flat_map. apply Forall_forall. intros rows _.
    rewrite Forall_flat_map. apply Forall_forall. intros cells _.
    unfold spec_row_item.
    destruct (trimmed_nonempty cells) as [|x kept] eqn:Hkept; [constructor|].
    apply Forall_singleton. apply tight_join; [done|].
    rewrite <- Hkept. apply Forall_tight_trimmed_nonempty.
Qed.

Lemma elem_of_flat_map_intro {A B} (f : A → list B) (xs : list A) (x : A) (y : B) :
  x ∈ xs → y ∈ f x → y ∈ flat_map f xs.
Proof.
  rewrite !list_elem_of_In. intros Hx Hy. apply in_flat_map. eauto.
Qed.

Lemma spec_items_nil d :
  spec_items d = []
  ↔ Forall blank (plain_paragraphs d)
    ∧ Forall (Forall (Forall blank)) (plain_tables d).
Proof.
  unfold spec_items. split.
  - intros [Hp Ht]%app_eq_nil. split; [by apply trimmed_nonempty_nil|].
    apply Forall_forall. intros rows Hrows.
    apply Forall_forall. intros cells Hcells.
    apply trimmed_nonempty_nil.
    destruct (trimmed_nonempty cells) as [|x kept] eqn:Hkept; [done|]. exfalso.
    assert (join (lit " | ") (x :: kept) ∈ flat_map (flat_map spec_row_item)
                                              (plain_tables d)) as Hin.
    { apply (elem_of_flat_map_intro _ _ rows); [done|].
      apply (elem_of_flat_map_intro _ _ cells); [done|].
      unfold spec_row_item. rewrite Hkept. apply elem_of_cons. by left. }
    rewrite Ht in Hin. by apply elem_of_nil in Hin.
  - intros [Hp Ht]. apply trimmed_nonempty_nil in Hp. rewrite Hp. simpl.
    induction Ht as [|rows tables Hrows _ IH]; simpl; [done|].
    rewrite IH, app_nil_r.
    induction Hrows as [|cells rows Hcells _ IHrows]; simpl; [done|].
    rewrite IHrows, app_nil_r. unfold spec_row_item.
    apply trimmed_nonempty_nil in Hcells. by rewrite Hcells.
Qed.

End StructuredMore.

(** The method on a document that loads. *)
Lemma extract_docx_content_loaded
    (env : Env) (file_path : str) (d : PlainDocument) (tr : trace) :
  Document env file_path = Ok (loaded d) →
  DocumentProcessor.extract_docx_content env file_path tr
  = (Ok (spec_structured_output d), tr ++ [OpenDocument file_path]).
Proof.
  intros Hdoc.
  unfold DocumentProcessor.extract_docx_content, try_except,
    DocumentProcessor.structured_body, call, eval, mbind, M_bind.
  by rewrite Hdoc, structured_text_plain.
Qed.

Lemma occurs_in_trans (x y z : str) : occurs_in x y → occurs_in y z → occurs_in x z.
Proof.
  intros (a & b & ->) (c & d & ->). exists (c ++ a), (b ++ d).
  by rewrite <- !app_assoc.
Qed.

(** X4. Whenever the structured path returns, what it returns never begins
    or ends with whitespace: the text is its own [strip()]. *)
Theorem structured_text_is_trimmed (doc : DocumentObject) (out : str) :
  DocumentProcessor.structured_text doc = Ok out → strip out = out.
Proof.
  unfold DocumentProcessor.structured_text.
  destruct (doc_paragraphs doc) as [paragraphs|e]; simpl; [|done].
  destruct (for_ paragraphs DocumentProcessor.paragraph_step [])
    as [parts|e] eqn:Hp; simpl; [|done].
  destruct (doc_tables doc) as [tables|e]; simpl; [|done].
  destruct (for_ tables DocumentProcessor.table_step parts)
    as [parts'|e] eqn:Ht; simpl; [|done].
  intros [= <-]. apply strip_join_tight.
  apply (for_invariant (Forall tight) _ tables parts parts'
           table_step_tight); [|done].
  by apply (for_invariant (Forall tight) _ paragraphs [] parts
              paragraph_step_tight).
Qed.

Lemma structured_text_is_trimmed_witness :
  strip (lit "Para1" ++ nl ++ nl ++ lit "Para2" ++ nl ++ nl
         ++ lit "A | B" ++ nl ++ nl ++ lit "C | D")
  = lit "Para1" ++ nl ++ nl ++ lit "Para2" ++ nl ++ nl
    ++ lit "A | B" ++ nl ++ nl ++ lit "C | D".
Proof.
  apply (structured_text_is_trimmed (loaded two_by_two)). reflexivity.
Defined.

(** X5. When python-docx loads the document, each paragraph with
    non-blank text makes the result non-empty and its trimmed text occurs in
    it. *)
Theorem structured_output_contains_paragraph
    (env : Env) (file_path : str) (d : PlainDocument) (t : str) (tr : trace) :
  Document env file_path = Ok (loaded d) →
  t ∈ plain_paragraphs d →
  ¬ blank t →
  ∃ out,
    DocumentProcessor.extract_docx_content env file_path tr
    = (Ok out, tr ++ [OpenDocument file_path])
    ∧ out ≠ [] ∧ occurs_in (strip t) out.
Proof.
  intros Hdoc Ht Hnb. exists (spec_structured_output d).
  split; [by apply extract_docx_content_loaded|].
  assert (strip t ∈ spec_items d) as Hin.
  { unfold spec_items. apply elem_of_app. left.
    by apply elem_of_trimmed_nonempty. }
  unfold spec_structured_output. split; [|by apply occurs_in_join].
  apply tight_nonempty, tight_join; [|apply spec_items_tight].
  intros Hnil. rewrite Hnil in Hin. by apply elem_of_nil in Hin.
Qed.

Lemma structured_output_contains_paragraph_witness :
  ∃ out,
    DocumentProcessor.extract_docx_content host_with_report (lit "report.docx") []
    = (Ok out, [OpenDocument (lit "report.docx")])
    ∧ out ≠ [] ∧ occurs_in (lit "Para2") out.
Proof.
  apply (structured_output_contains_paragraph host_with_report
           (lit "report.docx") two_by_two (lit "Para2") []);
    [reflexivity | | discriminate].
  apply elem_of_cons. right. apply elem_of_cons. by left.
Defined.

(** X6. When python-docx loads the document, each table row with a
    non-blank cell contributes the line of its trimmed non-empty cell texts
    joined by [" | "]; that line, and so the trimmed text of the cell, occur
    in the result. *)
Theorem structured_output_contains_row
    (env : Env) (file_path : str) (d : PlainDocument)
    (rows : list (list str)) (cells : list str) (c : str) (tr : trace) :
  Document env file_path = Ok (loaded d) →
  rows ∈ plain_tables d → cells ∈ rows → c ∈ cells →
  ¬ blank c →
  ∃ out,
    DocumentProcessor.extract_docx_content env file_path tr
    = (Ok out, tr ++ [OpenDocument file_path])
    ∧ occurs_in (join (lit " | ") (trimmed_nonempty cells)) out
    ∧ occurs_in (strip c) out.
Proof.
  intros Hdoc Hrows Hcells Hc Hnb. exists (spec_structured_output d).
  split; [by apply extract_docx_content_loaded|].
  assert (strip c ∈ trimmed_nonempty cells) as Hin
    by (by apply elem_of_trimmed_nonempty).
  assert (occurs_in (join (lit " | ") (trimmed_nonempty cells))
            (spec_structured_output d)) as Hline.
  { apply occurs_in_join. unfold spec_items. apply elem_of_app. right.
    apply (elem_of_flat_map_intro _ _ rows); [done|].
    apply (elem_of_flat_map_intro _ _ cells); [done|].
    unfold spec_row_item. destruct (trimmed_nonempty cells) as [|x kept].
    - by apply elem_of_nil in Hin.
    - apply elem_of_cons. by left. }
  split; [done|].
  apply (occurs_in_trans _ (join (lit " | ") (trimmed_nonempty cells))); [|done].
  by apply occurs_in_join.
Qed.

Lemma structured_output_contains_row_witness :
  ∃ out,
    DocumentProcessor.extract_docx_content host_with_report (lit "report.docx") []
    = (Ok out, [OpenDocument (lit "report.docx")])
    ∧ occurs_in (lit "C | D") out
    ∧ occurs_in (lit "D") out.
Proof.
  apply (structured_output_contains_row host_with_report (lit "report.docx")
           two_by_two [[lit "A"; lit "B"]; [lit "C"; lit "D"]]
           [lit "C"; lit "D"] (lit "D") []);
    [reflexivity | | | | discriminate].
  - apply elem_of_cons. by left.
  - apply elem_of_cons. right. apply elem_of_cons. by left.
  - apply elem_of_cons. right. apply elem_of_cons. by left.
Defined.

(** X7. When python-docx loads the document, the structured path returns
    the empty string exactly when every paragraph and every table cell is
    blank. *)
Theorem structured_output_empty_iff
    (env : Env) (file_path : str) (d : PlainDocument) (tr : trace) :
  Document env file_path = Ok (loaded d) →
  (DocumentProcessor.extract_docx_content env file_path tr).1 = Ok []
  ↔ Forall blank (plain_paragraphs d)
    ∧ Forall (Forall (Forall blank)) (plain_tables d).
Proof.
  intros Hdoc.
  rewrite (extract_docx_content_loaded env file_path d tr Hdoc). simpl.
  rewrite <- spec_items_nil. unfold spec_structured_output. split.
  - intros [= Hout]. destruct (spec_items d) as [|x items] eqn:Hitems; [done|].
    exfalso. apply (tight_nonempty (join (nl ++ nl) (x :: items))); [|done].
    apply tight_join; [done|]. rewrite <- Hitems. apply spec_items_tight.
  - by intros ->.
Qed.

Lemma structured_output_empty_iff_witness :
  (DocumentProcessor.extract_docx_content host_with_blank (lit "blank.docx") []).1
  = Ok [].
Proof.
  apply (structured_output_empty_iff host_with_blank (lit "blank.docx")
           blank_document [] eq_refl).
  split; repeat constructor.
Defined.

(** ** More on [process_document] and its callers *)

Section ProcessFacts.

Variable env : Env.

Implicit Types (file_path content : str) (tr : trace).

Lemma len_positive content : bool_decide (0 < len content)%Z = truthy content.
Proof.
  destruct content as [|c content]; [done|].
  apply bool_decide_eq_true_2. unfold len. simpl. lia.
Qed.

(** What [process_document] does to a [.docx] file whose stats are read:
    it extracts, then updates the metadata; an exception that leaves the
    extraction leaves [process_document]. *)
Lemma process_document_docx_run file_path size tr :
  os_stat_st_size env file_path = Ok size →
  str_lower env (os_path_splitext env file_path).2 = lit ".docx" →
  DocumentProcessor.process_document env file_path tr
  = match DocumentProcessor.extract_docx_content env file_path
            (tr ++ [Stat file_path]) with
    | (Ok content, tr') => (Ok (content, updated env file_path size content), tr')
    | (Raise e, tr') => (Raise e, tr')
    end.
Proof.
  intros Hstat Hext.
  unfold DocumentProcessor.process_document,
    DocumentProcessor.get_document_metadata, try_except, call, mbind, M_bind.
  rewrite Hstat. simpl. rewrite bool_decide_eq_false_2.
  - rewrite bool_decide_eq_true_2 by done.
    destruct (DocumentProcessor.extract_docx_content env file_path
                (tr ++ [Stat file_path])) as [[content|e] tr']; [|done].
    simpl. by rewrite len_positive.
  - rewrite !lookup_insert_ne by done. rewrite lookup_empty. by intros [? ?].
Qed.

Lemma process_document_docx file_path size tr content tr' :
  os_stat_st_size env file_path = Ok size →
  str_lower env (os_path_splitext env file_path).2 = lit ".docx" →
  DocumentProcessor.extract_docx_content env file_path (tr ++ [Stat file_path])
  = (Ok content, tr') →
  DocumentProcessor.process_document env file_path tr
  = (Ok (content, updated env file_path size content), tr').
Proof.
  intros Hstat Hext Hrun.
  by rewrite (process_document_docx_run file_path size tr Hstat Hext), Hrun.
Qed.

End ProcessFacts.

Section ProcessMore.

Variable env : Env.

Implicit Types (file_path content : str) (tr : trace).

(** What [process_document] does to a file of another extension whose
    stats are read. *)
Lemma process_document_other file_path size tr :
  os_stat_st_size env file_path = Ok size →
  str_lower env (os_path_splitext env file_path).2 ≠ lit ".docx" →
  DocumentProcessor.process_document env file_path tr
  = (Ok (lit "Unsupported file format: "
         ++ str_lower env (os_path_splitext env file_path).2,
         updated env file_path size
           (lit "Unsupported file format: "
            ++ str_lower env (os_path_splitext env file_path).2)),
     tr ++ [Stat file_path]).
Proof.
  intros Hstat Hext.
  unfold DocumentProcessor.process_document,
    DocumentProcessor.get_document_metadata, try_except, call, mbind, M_bind.
  rewrite Hstat. simpl. rewrite bool_decide_eq_false_2.
  - rewrite bool_decide_eq_false_2 by done. reflexivity.
  - rewrite !lookup_insert_ne by done. rewrite lookup_empty. by intros [? ?].
Qed.

Lemma updated_lookups file_path size content :
  updated env file_path size content !! "error" = None
  ∧ updated env file_path size content !! "file_path" = Some (VStr file_path)
  ∧ updated env file_path size content !! "file_name"
    = Some (VStr (os_path_basename env file_path))
  ∧ updated env file_path size content !! "file_size" = Some (VInt size)
  ∧ updated env file_path size content !! "content_length"
    = Some (VInt (len content))
  ∧ updated env file_path size content !! "extraction_success"
    = Some (VBool (truthy content && negb (startswith content (lit "Error")))).
Proof.
  unfold updated, collected. split_and!.
  - by rewrite !lookup_insert_ne.
  - rewrite !lookup_insert_ne by done. by rewrite lookup_insert_eq.
  - rewrite !lookup_insert_ne by done. by rewrite lookup_insert_eq.
  - rewrite !lookup_insert_ne by done. by rewrite lookup_insert_eq.
  - rewrite lookup_insert_ne by done. by rewrite lookup_insert_eq.
  - by rewrite lookup_insert_eq.
Qed.

Lemma updated_dom file_path size content :
  dom (updated env file_path size content)
  = ({["file_path"; "file_name"; "file_size"; "content_length";
       "extraction_success"]} : gset string).
Proof. unfold updated, collected. rewrite !dom_insert_L, dom_empty_L. set_solver. Qed.

(** The method on a file python-docx cannot load and [zipfile] cannot
    open, when the failure can be printed. *)
Lemma extract_docx_content_unreadable file_path (e e' : exn) tr :
  Document env file_path = Raise e →
  ZipFile env file_path = Raise e' →
  py_print env (lit "Error extracting DOCX content with python-docx: "
                ++ exn_str e) = Ok () →
  DocumentProcessor.extract_docx_content env file_path tr
  = (Ok (lit "Error extracting DOCX content: " ++ exn_str e'),
     tr ++ [OpenDocument file_path;
            Stdout (lit "Error extracting DOCX content with python-docx: "
                    ++ exn_str e);
            OpenArchive file_path]).
Proof.
  intros Hdoc Hzip Hprint.
  rewrite extract_docx_content_cases, Hdoc.
  cbv beta iota delta [mbind result_bind]. rewrite Hprint.
  unfold DocumentProcessor._extract_docx_manual,
    DocumentProcessor.manual_body, try_except, with_, call.
  rewrite Hzip. by rewrite <- !app_assoc.
Qed.

End ProcessMore.

(** X8. Whenever [process_document] returns for a file whose stats are
    read, the metadata dictionary has exactly the keys ['file_path'],
    ['file_name'], ['file_size'], ['content_length'] and
    ['extraction_success']: the first three as collected, ['content_length']
    the length of the very content returned, and ['extraction_success'] true
    exactly when that content is non-empty and does not begin with
    ["Error"]. *)
Theorem metadata_describes_content
    (env : Env) (file_path : str) (size : Z) (tr : trace)
    (content : str) (metadata : gmap string pyval) (tr' : trace) :
  os_stat_st_size env file_path = Ok size →
  DocumentProcessor.process_document env file_path tr
  = (Ok (content, metadata), tr') →
  dom metadata
  = ({["file_path"; "file_name"; "file_size"; "content_length";
       "extraction_success"]} : gset string)
  ∧ metadata !! "file_path" = Some (VStr file_path)
  ∧ metadata !! "file_name" = Some (VStr (os_path_basename env file_path))
  ∧ metadata !! "file_size" = Some (VInt size)
  ∧ metadata !! "content_length" = Some (VInt (len content))
  ∧ metadata !! "extraction_success"
    = Some (VBool (truthy content && negb (startswith content (lit "Error")))).
Proof.
  intros Hstat Hrun.
  assert (metadata = updated env file_path size content) as ->.
  { destruct (decide (str_lower env (os_path_splitext env file_path).2
                      = lit ".docx")) as [Hext|Hext].
    - rewrite (process_document_docx_run env file_path size tr Hstat Hext) in Hrun.
      destruct (DocumentProcessor.extract_docx_content env file_path
                  (tr ++ [Stat file_path])) as [[c|e] tr1]; [|done].
      by injection Hrun as <- <- _.
    - rewrite (process_document_other env file_path size tr Hstat Hext) in Hrun.
      by injection Hrun as <- <- _. }
  destruct (updated_lookups env file_path size content) as (_ & ? & ? & ? & ? & ?).
  split_and!; [apply updated_dom | done..].
Qed.

Lemma metadata_describes_content_witness :
  updated host_with_report (lit "report.docx") 4096
    (spec_structured_output two_by_two) !! "file_size" = Some (VInt 4096)
  ∧ updated host_with_report (lit "report.docx") 4096
      (spec_structured_output two_by_two) !! "content_length" = Some (VInt 26).
Proof.
  destruct (metadata_describes_content host_with_report (lit "report.docx") 4096 []
              (spec_structured_output two_by_two)
              (updated host_with_report (lit "report.docx") 4096
                 (spec_structured_output two_by_two))
              [Stat (lit "report.docx"); OpenDocument (lit "report.docx")]
              eq_refl eq_refl)
    as (_ & _ & _ & Hsize & Hlen & _).
  by split.
Defined.

(** X9. A document that loads and whose first non-blank paragraph begins
    with ["Error"] is extracted by the structured path, without any
    fallback, and yet flagged as a failure: ['extraction_success'] is
    false. *)
Theorem genuine_text_beginning_with_Error_is_flagged
    (env : Env) (file_path : str) (size : Z) (d : PlainDocument)
    (first : str) (rest : list str) (tr : trace) :
  os_stat_st_size env file_path = Ok size →
  str_lower env (os_path_splitext env file_path).2 = lit ".docx" →
  Document env file_path = Ok (loaded d) →
  trimmed_nonempty (plain_paragraphs d) = first :: rest →
  startswith first (lit "Error") = true →
  ∃ metadata : gmap string pyval,
    DocumentProcessor.process_document env file_path tr
    = (Ok (spec_structured_output d, metadata),
       tr ++ [Stat file_path; OpenDocument file_path])
    ∧ metadata !! "extraction_success" = Some (VBool false).
Proof.
  intros Hstat Hext Hdoc Hfirst Hprefix.
  exists (updated env file_path size (spec_structured_output d)). split.
  - apply process_document_docx; [done | done |].
    rewrite (extract_docx_content_loaded env file_path d _ Hdoc).
    by rewrite <- app_assoc.
  - destruct (updated_lookups env file_path size (spec_structured_output d))
      as (_ & _ & _ & _ & _ & ->).
    unfold spec_structured_output, spec_items. rewrite Hfirst. simpl app.
    rewrite (startswith_join _ _ _ _ Hprefix). by rewrite andb_false_r.
Qed.

Lemma genuine_text_beginning_with_Error_is_flagged_witness :
  ∃ metadata : gmap string pyval,
    DocumentProcessor.process_document host_with_error_guide (lit "errors.docx") []
    = (Ok (lit "Error codes and their meaning" ++ nl ++ nl ++ lit "E1: disk full",
           metadata),
       [Stat (lit "errors.docx"); OpenDocument (lit "errors.docx")])
    ∧ metadata !! "extraction_success" = Some (VBool false).
Proof.
  apply (genuine_text_beginning_with_Error_is_flagged host_with_error_guide
           (lit "errors.docx") 3000 error_guide
           (lit "Error codes and their meaning") [lit "E1: disk full"] []);
    reflexivity.
Defined.

(** X10. A document that loads but holds only blank paragraphs and cells
    gives the empty content, a ['content_length'] of 0 and a false
    ['extraction_success']; the fallback is not tried. *)
Theorem blank_document_is_flagged
    (env : Env) (file_path : str) (size : Z) (d : PlainDocument) (tr : trace) :
  os_stat_st_size env file_path = Ok size →
  str_lower env (os_path_splitext env file_path).2 = lit ".docx" →
  Document env file_path = Ok (loaded d) →
  Forall blank (plain_paragraphs d) →
  Forall (Forall (Forall blank)) (plain_tables d) →
  ∃ metadata : gmap string pyval,
    DocumentProcessor.process_document env file_path tr
    = (Ok ([], metadata), tr ++ [Stat file_path; OpenDocument file_path])
    ∧ metadata !! "content_length" = Some (VInt 0)
    ∧ metadata !! "extraction_success" = Some (VBool false).
Proof.
  intros Hstat Hext Hdoc Hp Ht.
  assert (spec_structured_output d = []) as Hout.
  { unfold spec_structured_output.
    by rewrite (proj2 (spec_items_nil d) (conj Hp Ht)). }
  exists (updated env file_path size []). split.
  - apply process_document_docx; [done | done |].
    rewrite (extract_docx_content_loaded env file_path d _ Hdoc), Hout.
    by rewrite <- app_assoc.
  - by destruct (updated_lookups env file_path size [])
      as (_ & _ & _ & _ & -> & ->).
Qed.

Lemma blank_document_is_flagged_witness :
  ∃ metadata : gmap string pyval,
    DocumentProcessor.process_document host_with_blank (lit "blank.docx") []
    = (Ok ([], metadata),
       [Stat (lit "blank.docx"); OpenDocument (lit "blank.docx")])
    ∧ metadata !! "content_length" = Some (VInt 0)
    ∧ metadata !! "extraction_success" = Some (VBool false).
Proof.
  apply (blank_document_is_flagged host_with_blank (lit "blank.docx") 2048
           blank_document []); try reflexivity; repeat constructor.
Defined.

(** X11. A [.docx] file whose stats are read, that python-docx cannot
    load and [zipfile] cannot open: when the failure of the structured path
    can be printed, the content is ["Error extracting DOCX content: "]
    followed by the second failure's message, and ['extraction_success'] is
    false. *)
Theorem unreadable_docx_is_flagged
    (env : Env) (file_path : str) (size : Z) (e e' : exn) (tr : trace) :
  os_stat_st_size env file_path = Ok size →
  str_lower env (os_path_splitext env file_path).2 = lit ".docx" →
  Document env file_path = Raise e →
  ZipFile env file_path = Raise e' →
  py_print env (lit "Error extracting DOCX content with python-docx: "
                ++ exn_str e) = Ok () →
  ∃ metadata : gmap string pyval,
    DocumentProcessor.process_document env file_path tr
    = (Ok (lit "Error extracting DOCX content: " ++ exn_str e', metadata),
       tr ++ [Stat file_path; OpenDocument file_path;
              Stdout (lit "Error extracting DOCX content with python-docx: "
                      ++ exn_str e);
              OpenArchive file_path])
    ∧ metadata !! "extraction_success" = Some (VBool false).
Proof.
  intros Hstat Hext Hdoc Hzip Hprint.
  exists (updated env file_path size
            (lit "Error extracting DOCX content: " ++ exn_str e')). split.
  - apply process_document_docx; [done | done |].
    rewrite (extract_docx_content_unreadable env file_path e e' _ Hdoc Hzip Hprint).
    by rewrite <- app_assoc.
  - by destruct (updated_lookups env file_path size
                   (lit "Error extracting DOCX content: " ++ exn_str e'))
      as (_ & _ & _ & _ & _ & ->).
Qed.

Lemma unreadable_docx_is_flagged_witness :
  ∃ metadata : gmap string pyval,
    (DocumentProcessor.process_document host_with_fake_docx (lit "photo.docx") []).1
    = Ok (lit "Error extracting DOCX content: File is not a zip file", metadata)
    ∧ metadata !! "extraction_success" = Some (VBool false).
Proof.
  destruct (unreadable_docx_is_flagged host_with_fake_docx (lit "photo.docx") 512
              (Exception (lit "Package not found at 'photo.docx'")) not_a_zip []
              eq_refl eq_refl eq_refl eq_refl eq_refl)
    as (metadata & Hrun & Hflag).
  exists metadata. by rewrite Hrun.
Defined.

(** ** More on the fallback and on the module-level function *)

Lemma process_document_no_stats
    (env : Env) (file_path : str) (e : exn) (tr : trace) :
  os_stat_st_size env file_path = Raise e →
  DocumentProcessor.process_document env file_path tr
  = (Ok ([], <["error" := VStr (lit "Could not get metadata: " ++ exn_str e)]> ∅),
     tr ++ [Stat file_path]).
Proof.
  intros Hstat.
  unfold DocumentProcessor.process_document,
    DocumentProcessor.get_document_metadata, try_except, call, mbind, M_bind.
  rewrite Hstat. simpl. rewrite bool_decide_eq_true_2; [done|].
  rewrite lookup_insert_eq. by eexists.
Qed.

(** X12. The fallback releases what it acquires. If the archive cannot be
    opened, nothing is left to close. If it opens, it is closed last on
    every way out: at once when the markup entry is not listed, after the
    failed attempt when the entry cannot be opened, and after the entry was
    parsed and closed otherwise, whether parsing succeeded or not. *)
Theorem fallback_closes_what_it_opens
    (env : Env) (file_path : str) (tr : trace) :
  match ZipFile env file_path with
  | Raise e =>
      DocumentProcessor._extract_docx_manual env file_path tr
      = (Ok (lit "Error extracting DOCX content: " ++ exn_str e),
         tr ++ [OpenArchive file_path])
  | Ok docx_zip =>
      ∃ s,
        DocumentProcessor._extract_docx_manual env file_path tr
        = (Ok s,
           tr ++ [OpenArchive file_path]
              ++ (if contains (namelist docx_zip) (lit "word/document.xml")
                  then match zip_open docx_zip (lit "word/document.xml") with
                       | Ok _ => [OpenEntry (lit "word/document.xml"); ParseXml;
                                  CloseEntry (lit "word/document.xml")]
                       | Raise _ => [OpenEntry (lit "word/document.xml")]
                       end
                  else [])
              ++ [CloseArchive file_path])
  end.
Proof.
  unfold DocumentProcessor._extract_docx_manual, DocumentProcessor.manual_body,
    try_except, with_, call, mbind, M_bind.
  destruct (ZipFile env file_path) as [docx_zip|e]; [|done].
  destruct (contains _ _).
  - destruct (zip_open docx_zip _) as [xml_file|e].
    + destruct (ET_parse env xml_file) as [root|e]; simpl;
        eexists; by rewrite <- !app_assoc.
    + simpl. eexists. by rewrite <- !app_assoc.
  - simpl. eexists. by rewrite <- !app_assoc.
Qed.

(** X13. The fallback returns either the text collected from the parsed
    markup entry, or a string that begins with ["Error"]: every failure on
    the way (archive, entry, parser) and the missing entry are reported in
    the form [process_document] flags. *)
Theorem fallback_returns_text_or_error
    (env : Env) (file_path : str) (tr : trace) :
  (∃ docx_zip xml_file root,
      ZipFile env file_path = Ok docx_zip
      ∧ lit "word/document.xml" ∈ namelist docx_zip
      ∧ zip_open docx_zip (lit "word/document.xml") = Ok xml_file
      ∧ ET_parse env xml_file = Ok root
      ∧ (DocumentProcessor._extract_docx_manual env file_path tr).1
        = Ok (_extract_formatted_text root))
  ∨ (∃ s,
      (DocumentProcessor._extract_docx_manual env file_path tr).1 = Ok s
      ∧ startswith s (lit "Error") = true).
Proof.
  unfold DocumentProcessor._extract_docx_manual, DocumentProcessor.manual_body,
    try_except, with_, call, mbind, M_bind, contains.
  destruct (ZipFile env file_path) as [docx_zip|e] eqn:Hzip;
    [|right; by eexists].
  case_bool_decide as Hin; [|right; by eexists].
  destruct (zip_open docx_zip _) as [xml_file|e] eqn:Hopen;
    [|right; by eexists].
  destruct (ET_parse env xml_file) as [root|e] eqn:Hparse;
    [|right; by eexists].
  left. by exists docx_zip, xml_file, root.
Qed.

(** X14. The module-level [extract_docx_content] is [process_document]
    without its metadata: for a file whose stats cannot be read it returns
    the empty string and the reason is lost; for a [.docx] file it does what
    the method of the same name does after the stats were read (the same
    string, or the same exception when the method lets one through); for
    any other extension it returns the unsupported-format message. *)
Theorem convenience_function_outcomes
    (env : Env) (file_path : str) (tr : trace) :
  match os_stat_st_size env file_path with
  | Raise _ => extract_docx_content env file_path tr = (Ok [], tr ++ [Stat file_path])
  | Ok _ =>
      if bool_decide (str_lower env (os_path_splitext env file_path).2 = lit ".docx")
      then extract_docx_content env file_path tr
           = DocumentProcessor.extract_docx_content env file_path
               (tr ++ [Stat file_path])
      else extract_docx_content env file_path tr
           = (Ok (lit "Unsupported file format: "
                  ++ str_lower env (os_path_splitext env file_path).2),
              tr ++ [Stat file_path])
  end.
Proof.
  unfold extract_docx_content, mbind, M_bind.
  destruct (os_stat_st_size env file_path) as [size|e] eqn:Hstat.
  - case_bool_decide as Hext.
    + rewrite (process_document_docx_run env file_path size tr Hstat Hext).
      by destruct (DocumentProcessor.extract_docx_content env file_path
                     (tr ++ [Stat file_path])) as [[content|e] tr'].
    + by rewrite (process_document_other env file_path size tr).
  - by rewrite (process_document_no_stats env file_path e tr).
Qed.

(** ** Paragraphs inside paragraphs *)

Section NestedParagraphs.

Implicit Types (e root outer inner x : Element) (s t : str).

Lemma elem_of_flat_map_inv {A B} (f : A → list B) (xs : list A) (y : B) :
  y ∈ flat_map f xs → ∃ a, a ∈ xs ∧ y ∈ f a.
Proof.
  intros (a & Ha & Hy)%list_elem_of_In%in_flat_map.
  exists a. by rewrite !list_elem_of_In.
Qed.

(** The elements of a subtree come together in document order. *)
Lemma iter_subtree e x : x ∈ iter e → ∃ before after, iter e = before ++ iter x ++ after.
Proof.
  induction e as [tg tx tl cs IH] using Element_children_ind.
  rewrite iter_unfold. simpl. intros [->|Hx]%elem_of_cons.
  - exists [], []. by rewrite app_nil_r, iter_unfold.
  - apply elem_of_flat_map_inv in Hx as (c & Hc & Hx).
    rewrite Forall_forall in IH. destruct (IH c Hc Hx) as (A & B & Hiter).
    apply list_elem_of_split in Hc as (cs1 & cs2 & ->).
    exists (Elem tg tx tl (cs1 ++ c :: cs2) :: flat_map iter cs1 ++ A),
      (B ++ flat_map iter cs2).
    rewrite flat_map_app. simpl. rewrite Hiter. by rewrite <- !app_assoc.
Qed.

(** The text of a subtree comes together in the text of the tree. *)
Lemma all_text_subtree e x : x ∈ iter e → occurs_in (all_text_of x) (all_text_of e).
Proof.
  induction e as [tg tx tl cs IH] using Element_children_ind.
  rewrite iter_unfold. simpl. intros [->|Hx]%elem_of_cons.
  - exists [], []. by rewrite app_nil_r.
  - apply elem_of_flat_map_inv in Hx as (c & Hc & Hx).
    rewrite Forall_forall in IH. specialize (IH c Hc Hx).
    apply list_elem_of_split in Hc as (cs1 & cs2 & ->).
    apply (occurs_in_trans _ (all_text_of c)); [done|].
    unfold all_text_of. simpl. rewrite flat_map_app. simpl.
    rewrite !join_empty_sep_app.
    exists (join [] (yield_if tx)
            ++ join [] (flat_map (λ c0, itertext c0 ++ yield_if (tail c0)) cs1)),
      (join [] (yield_if (tail c))
       ++ join [] (flat_map (λ c0, itertext c0 ++ yield_if (tail c0)) cs2)).
    by rewrite <- !app_assoc.
Qed.

Lemma blank_occurs_in s t : occurs_in s t → blank t → blank s.
Proof.
  intros (pre & post & ->). rewrite !blank_spaces, !forallb_app.
  intros H. apply andb_prop in H as [_ H]. by apply andb_prop in H as [H _].
Qed.

Lemma lstrip_keeps_tight_part pre s post :
  starts_tight s = true → ∃ pre', lstrip (pre ++ s ++ post) = pre' ++ s ++ post.
Proof.
  intros Hs. induction pre as [|c pre IH]; simpl.
  - exists []. simpl. apply lstrip_starts_tight. by apply starts_tight_app.
  - destruct (isspace c); [exact IH | by exists (c :: pre)].
Qed.

Lemma rstrip_keeps_tight_part pre s post :
  starts_tight (rev s) = true → ∃ post', rstrip (pre ++ s ++ post) = pre ++ s ++ post'.
Proof.
  intros Hs. unfold rstrip. rewrite !rev_app_distr, <- app_assoc.
  destruct (lstrip_keeps_tight_part (rev post) (rev s) (rev pre) Hs) as (post' & ->).
  exists (rev post'). by rewrite !rev_app_distr, !rev_involutive, <- app_assoc.
Qed.

(** What [strip()] returns is a part of the string. *)
Lemma strip_occurs_in s : occurs_in (strip s) s.
Proof.
  destruct (lstrip_suffix s) as (ws & Hs & _). unfold strip, rstrip.
  destruct (lstrip_suffix (rev (lstrip s))) as (ws' & Hs' & _).
  exists ws, (rev ws'). rewrite Hs at 1. f_equal.
  apply (f_equal (@rev char)) in Hs'.
  by rewrite rev_involutive, rev_app_distr in Hs'.
Qed.

(** A tight part of a string is still a part of the string trimmed. *)
Lemma occurs_in_strip s t : tight s → occurs_in s t → occurs_in s (strip t).
Proof.
  intros [Hl Hr] (pre & post & ->). unfold strip.
  destruct (lstrip_keeps_tight_part pre s post Hl) as (pre' & ->).
  destruct (rstrip_keeps_tight_part pre' s post Hr) as (post' & ->).
  by exists pre', post'.
Qed.

Lemma trimmed_nonempty_app (ts ts' : list str) :
  trimmed_nonempty (ts ++ ts') = trimmed_nonempty ts ++ trimmed_nonempty ts'.
Proof. unfold trimmed_nonempty. by rewrite map_app, filter_app. Qed.

Lemma trimmed_nonempty_keeps t (ts : list str) :
  ¬ blank t → trimmed_nonempty (t :: ts) = strip t :: trimmed_nonempty ts.
Proof.
  intros Hnb. rewrite trimmed_nonempty_cons.
  apply truthy_true in Hnb. by rewrite Hnb.
Qed.

(** A paragraph found below a paragraph found is found too, later. *)
Lemma findall_nested root outer inner :
  outer ∈ findall_descendants w_p root →
  inner ∈ findall_descendants w_p outer →
  ∃ l1 l2 l3, findall_descendants w_p root = l1 ++ outer :: l2 ++ inner :: l3.
Proof.
  intros (c & Hc & Houter & Htag)%findall_descendants_below
         (c' & Hc' & Hinner & Htag')%findall_descendants_below.
  apply list_elem_of_split in Hc as (cs1 & cs2 & Hcs).
  destruct (iter_subtree c outer Houter) as (A & B & HA).
  assert (inner ∈ flat_map iter (children outer)) as Hbelow
    by (by apply (elem_of_flat_map_intro _ _ c')).
  apply list_elem_of_split in Hbelow as (D1 & D2 & HD).
  unfold findall_descendants. rewrite Hcs, flat_map_app. simpl.
  unfold iter_tag at 2. rewrite HA, (iter_unfold outer), HD.
  exists (flat_map (iter_tag w_p) cs1 ++ filter (λ x, tag x = w_p) A),
    (filter (λ x, tag x = w_p) D1),
    (filter (λ x, tag x = w_p) D2 ++ filter (λ x, tag x = w_p) B
     ++ flat_map (iter_tag w_p) cs2).
  rewrite !filter_app, filter_cons_True by done.
  rewrite filter_app, filter_cons_True by done.
  rewrite <- !app_assoc. simpl. by rewrite <- !app_assoc.
Qed.

End NestedParagraphs.

(** X15. A paragraph element nested in another paragraph element (as the
    paragraphs of a text box are) has its text returned twice by the
    fallback when it is not blank: inside the item of the outer paragraph,
    and again as an item of its own further on. *)
Theorem nested_paragraph_text_is_repeated (root outer inner : Element) :
  outer ∈ findall_descendants w_p root →
  inner ∈ findall_descendants w_p outer →
  ¬ blank (all_text_of inner) →
  occurs_in (strip (all_text_of inner)) (strip (all_text_of outer))
  ∧ ∃ items1 items2 items3,
      tier3 root = items1 ++ strip (all_text_of outer)
                     :: items2 ++ strip (all_text_of inner) :: items3.
Proof.
  intros Houter Hinner Hnb.
  assert (occurs_in (all_text_of inner) (all_text_of outer)) as Hpart.
  { apply findall_descendants_below in Hinner as (c & Hc & Hinner & _).
    apply all_text_subtree. rewrite iter_unfold. apply elem_of_cons. right.
    by apply (elem_of_flat_map_intro _ _ c). }
  assert (¬ blank (all_text_of outer)) as Hnb'.
  { intros Hb. by apply Hnb, (blank_occurs_in _ _ Hpart). }
  split.
  - apply occurs_in_strip; [by apply strip_tight|].
    apply (occurs_in_trans _ (all_text_of inner)); [|done].
    apply strip_occurs_in.
  - destruct (findall_nested root outer inner Houter Hinner) as (l1 & l2 & l3 & Hall).
    assert (tier1 root
            = trimmed_nonempty (map all_text_of l1)
              ++ strip (all_text_of outer)
              :: trimmed_nonempty (map all_text_of l2)
              ++ strip (all_text_of inner)
              :: trimmed_nonempty (map all_text_of l3)) as H1.
    { rewrite tier1_trimmed, Hall, map_app, trimmed_nonempty_app. simpl.
      rewrite trimmed_nonempty_keeps by done.
      rewrite map_app, trimmed_nonempty_app. simpl.
      by rewrite trimmed_nonempty_keeps. }
    eexists _, _, _. rewrite tier3_of_tier1; [exact H1|].
    rewrite H1. by destruct (trimmed_nonempty (map all_text_of l1)).
Qed.

Lemma nested_paragraph_text_is_repeated_witness :
  occurs_in (lit "boxed") (lit "Outer boxed end")
  ∧ ∃ items1 items2 items3,
      tier3 text_box = items1 ++ lit "Outer boxed end" :: items2 ++ lit "boxed" :: items3.
Proof.
  apply (nested_paragraph_text_is_repeated text_box outer_paragraph boxed_paragraph).
  - apply elem_of_cons. by left.
  - apply elem_of_cons. by left.
  - discriminate.
Defined.

(** X16. For a tree as the parser returns it (its root has no tail), every
    item the fallback collects is a contiguous part of the text of the whole
    tree, [''.join(root.itertext())], which is the text the script
    [extract_docx.py] keeps: the fallback returns nothing that is not in that
    text. *)
Theorem fallback_items_are_parts_of_whole_text (root : Element) (item : str) :
  tail root = None →
  item ∈ tier3 root →
  occurs_in item (all_text_of root).
Proof.
  intros Htail Hitem.
  destruct (decide (tier2 root = [])) as [H2|H2].
  { destruct (tier3_after_empty_tier2 root H2) as [_ H3].
    rewrite H3, Htail in Hitem. by apply elem_of_nil in Hitem. }
  assert (tier3 root = tier2 root) as H3.
  { unfold tier3, collect_nodes. by destruct (tier2 root). }
  rewrite H3 in Hitem. clear H2 H3.
  unfold tier2, collect_all_text in Hitem.
  destruct (tier1 root) as [|x items] eqn:H1.
  - destruct (truthy (strip (all_text_of root))); [|by apply elem_of_nil in Hitem].
    apply list_elem_of_singleton in Hitem as ->. apply strip_occurs_in.
  - rewrite <- H1, tier1_trimmed in Hitem. unfold trimmed_nonempty in Hitem.
    apply list_elem_of_filter in Hitem as [_ Hitem].
    apply list_elem_of_fmap in Hitem as (t & -> & Ht).
    apply list_elem_of_fmap in Ht as (para & -> & Hpara).
    apply (occurs_in_trans _ (all_text_of para)); [apply strip_occurs_in|].
    apply findall_descendants_below in Hpara as (c & Hc & Hpara & _).
    apply all_text_subtree. rewrite iter_unfold. apply elem_of_cons. right.
    by apply (elem_of_flat_map_intro _ _ c).
Qed.

Lemma fallback_items_are_parts_of_whole_text_witness :
  occurs_in (lit "a") (lit "intro a betweenb").
Proof.
  apply (fallback_items_are_parts_of_whole_text mixed_text (lit "a") eq_refl).
  apply elem_of_cons. by left.
Defined.

(** ** The scripts *)

(** [process_document] returns whenever the standard output takes what is
    printed. *)
Lemma process_document_returns (env : Env) (file_path : str) (tr : trace) :
  (∀ line, py_print env line = Ok ()) →
  ∃ content metadata tr',
    DocumentProcessor.process_document env file_path tr
    = (Ok (content, metadata), tr').
Proof.
  intros Hprint.
  destruct (os_stat_st_size env file_path) as [size|e] eqn:Hstat.
  - destruct (decide (str_lower env (os_path_splitext env file_path).2
                      = lit ".docx")) as [Hext|Hext].
    + destruct (extract_docx_content_returns env file_path
                  (tr ++ [Stat file_path]) Hprint) as (content & tr' & Hrun).
      eexists _, _, _. by apply (process_document_docx env file_path size tr content tr').
    + eexists _, _, _. by apply process_document_other.
  - eexists _, _, _. by apply process_document_no_stats.
Qed.

Lemma write_file_opens (fs : ScriptEnv) (path text : str) (st : list script_event) :
  ∃ out rest, write_file fs path text st = (out, st ++ OpenForWriting path :: rest).
Proof.
  unfold write_file, then_close, act, mbind, Script_bind.
  destruct (open_for_writing fs path) as [[]|e]; [|by eexists _, _].
  eexists _, _. by rewrite <- !app_assoc.
Qed.

(** X17. The [__main__] block takes any non-empty content for a success.
    When the file it names exists with the extension [.docx] but cannot be
    loaded by python-docx nor opened as an archive, the standard output
    takes every line and the output file can be written, it prints
    ["Content extracted successfully!"] and saves the error message as the
    extracted text. *)
Theorem main_saves_the_error_message
    (env : Env) (fs : ScriptEnv) (size : Z) (e e' : exn)
    (st : list script_event) :
  os_stat_st_size env main_file_path = Ok size →
  str_lower env (os_path_splitext env main_file_path).2 = lit ".docx" →
  Document env main_file_path = Raise e →
  ZipFile env main_file_path = Raise e' →
  (∀ line, py_print env line = Ok ()) →
  open_for_writing fs main_output = Ok () →
  write_text fs main_output (lit "Error extracting DOCX content: " ++ exn_str e')
  = Ok () →
  main env fs st
  = (Ok (),
     st ++ [Plain (Stat main_file_path); Plain (OpenDocument main_file_path);
            Plain (Stdout (lit "Error extracting DOCX content with python-docx: "
                           ++ exn_str e));
            Plain (OpenArchive main_file_path);
            Plain (Stdout (lit "Content extracted successfully!"));
            Plain (Stdout (lit "Content length: "
                           ++ str_of_int (len (lit "Error extracting DOCX content: "
                                               ++ exn_str e'))
                           ++ lit " characters"));
            Plain (Stdout (nl ++ lit "--- First 500 characters ---"));
            Plain (Stdout (take 500 (lit "Error extracting DOCX content: "
                                     ++ exn_str e')));
            OpenForWriting main_output;
            WriteText main_output
              (lit "Error extracting DOCX content: " ++ exn_str e');
            CloseFile main_output;
            Plain (Stdout (nl ++ lit "Formatted content saved to NeuroLearn_extracted_formatted.txt"));
            Plain (Stdout (nl ++ lit "Metadata: "
                           ++ repr_metadata fs
                                (updated env main_file_path size
                                   (lit "Error extracting DOCX content: "
                                    ++ exn_str e'))))]).
Proof.
  intros Hstat Hext Hdoc Hzip Hprint Hopen Hwrite.
  unfold main, run, mbind, Script_bind.
  rewrite (process_document_docx env main_file_path size []
             (lit "Error extracting DOCX content: " ++ exn_str e')
             ([Stat main_file_path]
              ++ [OpenDocument main_file_path;
                  Stdout (lit "Error extracting DOCX content with python-docx: "
                          ++ exn_str e);
                  OpenArchive main_file_path])
             Hstat Hext
             (extract_docx_content_unreadable env main_file_path e e' _ Hdoc Hzip
                (Hprint _))).
  change (truthy (lit "Error extracting DOCX content: " ++ exn_str e')) with true.
  unfold echo, write_file, then_close, act, mbind, Script_bind.
  rewrite !Hprint, Hopen, Hwrite. cbn [map app].
  by rewrite <- !app_assoc.
Qed.

Lemma main_saves_the_error_message_witness :
  ∃ before after,
    (main host_with_fake_main_file writable []).2
    = before
      ++ [Plain (Stdout (lit "Content extracted successfully!"));
          Plain (Stdout (lit "Content length: 53 characters"))]
      ++ after.
Proof.
  rewrite (main_saves_the_error_message host_with_fake_main_file writable 512
             (Exception (lit "Package not found")) not_a_zip []
             eq_refl eq_refl eq_refl eq_refl (λ _, eq_refl) eq_refl eq_refl).
  by eexists [_; _; _; _], _.
Defined.

(** X18. When the standard output takes every line, the [__main__] block
    opens its output file exactly when [process_document] returned a
    non-empty content; with an empty content it only prints the failure and
    the metadata. *)
Theorem main_writes_exactly_nonempty_content (env : Env) (fs : ScriptEnv) :
  (∀ line, py_print env line = Ok ()) →
  ∃ content metadata evs,
    DocumentProcessor.process_document env main_file_path []
    = (Ok (content, metadata), evs)
    ∧ (OpenForWriting main_output ∈ (main env fs []).2 ↔ content ≠ [])
    ∧ (content = [] →
       main env fs []
       = (Ok (),
          map Plain evs
          ++ [Plain (Stdout (lit "Failed to extract content"));
              Plain (Stdout (lit "Metadata: " ++ repr_metadata fs metadata))])).
Proof.
  intros Hprint.
  destruct (process_document_returns env main_file_path [] Hprint)
    as (content & metadata & evs & Hrun).
  exists content, metadata, evs. split; [done|].
  unfold main, run, mbind, Script_bind. rewrite Hrun.
  destruct content as [|c content]; cbn [truthy].
  - unfold echo, act. rewrite !Hprint. cbn [app snd].
    split; [|by rewrite <- app_assoc].
    split; [|done]. intros Hin. exfalso.
    rewrite <- app_assoc in Hin. apply elem_of_app in Hin as [Hin|Hin].
    + apply list_elem_of_fmap in Hin as (ev & Hev & _). discriminate.
    + apply elem_of_cons in Hin as [Hin|Hin]; [discriminate|].
      apply elem_of_cons in Hin as [Hin|Hin]; [discriminate|].
      by apply elem_of_nil in Hin.
  - split; [|done]. split; [done|]. intros _.
    unfold echo, act. rewrite !Hprint. cbv beta iota.
    match goal with
    | |- context [write_file fs main_output ?text ?before] =>
        destruct (write_file_opens fs main_output text before)
          as (out & rest & Hwrite)
    end.
    rewrite Hwrite.
    destruct out as [[]|e]; cbv beta iota; cbn [snd];
      rewrite ?elem_of_app, ?elem_of_cons; tauto.
Qed.

Lemma main_writes_exactly_nonempty_content_witness :
  OpenForWriting main_output ∈ (main host_with_fake_main_file writable []).2.
Proof.
  destruct (main_writes_exactly_nonempty_content host_with_fake_main_file writable
              (λ _, eq_refl)) as (content & metadata & evs & Hrun & Hiff & _).
  apply Hiff. intros Hnil. rewrite Hnil in Hrun. vm_compute in Hrun.
  discriminate Hrun.
Defined.

(** X19. The script [extract_docx.py] lets every failure through, and
    closes the archive only after reading and decoding succeeded: when the
    archive opens but its markup entry cannot be read or decoded, the script
    ends with that exception, the archive is left open, and no file is
    written and no line printed. *)
Theorem script_leaves_archive_open_on_failure
    (env : Env) (fs : ScriptEnv) (zip_file : Archive) (e : exn)
    (st : list script_event) :
  ZipFile env script_file_path = Ok zip_file →
  zip_read fs zip_file (lit "word/document.xml") ≫= decode_utf8 fs = Raise e →
  extract_docx_script env fs st
  = (Raise e,
     st ++ [Plain (OpenArchive script_file_path);
            ReadEntry (lit "word/document.xml")]).
Proof.
  intros Hzip Hread.
  unfold extract_docx_script, act, compute, mbind, Script_bind.
  rewrite Hzip.
  destruct (zip_read fs zip_file _) as [raw|e0]; simpl in Hread.
  - rewrite Hread. by rewrite <- !app_assoc.
  - injection Hread as ->. by rewrite <- !app_assoc.
Qed.

Lemma script_leaves_archive_open_on_failure_witness :
  extract_docx_script host_with_hollow_main_file writable []
  = (Raise (Exception (lit "There is no item named 'word/document.xml' in the archive")),
     [Plain (OpenArchive script_file_path); ReadEntry (lit "word/document.xml")]).
Proof.
  apply (script_leaves_archive_open_on_failure host_with_hollow_main_file
           writable archive_without_markup); reflexivity.
Defined.


